(** * Gateway orchestrator of the Bosch thermostat client

    A shallow embedding of [bosch_thermostat_client/gateway/base_gateway.py]
    (class [BaseGateway]) together with the Python run-time notions it relies
    on: dynamically typed values, insertion-ordered dictionaries, exceptions
    and the asynchronous transport, the latter rendered as explicit state
    passing. *)

From Stdlib Require Import ZArith Ascii String List Bool Lia.
From stdpp Require Import base option list strings gmap fin_maps.

Open Scope string_scope.

(** ** Python values and exceptions *)

Inductive exn : Set :=
| DeviceException
| KeyError
| AttributeError
| TypeError
| ValueError
| IndexError
| RecursionError
| NotImplementedError.

Inductive res (A : Type) : Type :=
| Ok (a : A)
| Raise (e : exn).
Arguments Ok {A} a.
Arguments Raise {A} e.

#[warnings="-register-all"]
Inductive value : Type :=
| VNone
| VBool (b : bool)
| VInt (z : Z)
| VStr (s : string)
| VList (l : list value)
| VDict (d : list (string * value)).

(** Truth value of an object, as tested by [if x:] and [not x]. *)
Definition truthy (v : value) : bool :=
  match v with
  | VNone => false
  | VBool b => b
  | VInt z => negb (Z.eqb z 0)
  | VStr s => negb (String.eqb s "")
  | VList l => match l with [] => false | _ :: _ => true end
  | VDict d => match d with [] => false | _ :: _ => true end
  end.

(** ** Dictionaries

    A dictionary is the list of its bindings in insertion order.  A key that
    is written again keeps its place and takes the new value, so a lookup
    reads the last binding written for the key. *)

Section Dict.
Context {V : Type}.

Fixpoint dict_get (k : string) (d : list (string * V)) : option V :=
  match d with
  | [] => None
  | (k', v) :: d' =>
      match dict_get k d' with
      | Some x => Some x
      | None => if String.eqb k k' then Some v else None
      end
  end.

Definition dict_has (k : string) (d : list (string * V)) : bool :=
  match dict_get k d with Some _ => true | None => false end.

Fixpoint dict_replace (k : string) (v : V) (d : list (string * V))
  : list (string * V) :=
  match d with
  | [] => []
  | (k', v') :: d' =>
      (if String.eqb k k' then (k', v) else (k', v')) :: dict_replace k v d'
  end.

(** [d[k] = v] *)
Definition dict_set (k : string) (v : V) (d : list (string * V))
  : list (string * V) :=
  if dict_has k d then dict_replace k v d else d ++ [(k, v)].

(** [d.pop(k, None)], the popped value being discarded *)
Fixpoint dict_pop (k : string) (d : list (string * V)) : list (string * V) :=
  match d with
  | [] => []
  | (k', v) :: d' =>
      if String.eqb k k' then dict_pop k d' else (k', v) :: dict_pop k d'
  end.

(** [d.update(other)] *)
Definition dict_update (d other : list (string * V)) : list (string * V) :=
  fold_left (fun acc kv => dict_set (fst kv) (snd kv) acc) other d.

(** The bindings as iteration sees them: one per key, first-insertion
    order, last value. *)
Definition dict_items (d : list (string * V)) : list (string * V) :=
  dict_update [] d.

Definition dict_keys (d : list (string * V)) : list string :=
  map fst (dict_items d).

Definition dict_values (d : list (string * V)) : list V :=
  map snd (dict_items d).
End Dict.

(** ** Operators on values *)

(** [k in v] for a string [k]. *)
Definition py_in (k : string) (v : value) : res bool :=
  match v with
  | VDict d => Ok (dict_has k d)
  | VList l =>
      Ok (existsb (fun x => match x with VStr s => String.eqb s k | _ => false end) l)
  | VStr s => Ok (match String.index 0 k s with Some _ => true | None => false end)
  | VNone | VBool _ | VInt _ => Raise TypeError
  end.

(** [v[k]] for a string [k]. *)
Definition py_getitem (v : value) (k : string) : res value :=
  match v with
  | VDict d => match dict_get k d with Some x => Ok x | None => Raise KeyError end
  | _ => Raise TypeError
  end.

(** [v.get(k)] *)
Definition py_get (v : value) (k : string) : res value :=
  match v with
  | VDict d => Ok (match dict_get k d with Some x => x | None => VNone end)
  | _ => Raise AttributeError
  end.

(** [v.values()] *)
Definition py_values (v : value) : res (list value) :=
  match v with
  | VDict d => Ok (dict_values d)
  | _ => Raise AttributeError
  end.

Definition res_map {A B} (f : A -> B) (r : res A) : res B :=
  match r with Ok a => Ok (f a) | Raise e => Raise e end.

(** *** [str.format]

    The method belongs to the Python run time, with its replacement fields,
    conversions, format specifications and the exceptions it raises for a
    template it cannot fill.  The gateway uses it in one place, with one
    positional argument; the development is written against it, as it is
    against the other code outside the module. *)
Class Runtime : Type := {
  str_format : string -> string -> res string
}.

(** [v.format(arg)]: only strings have the method. *)
Definition py_format `{Runtime} (v : value) (arg : string) : res value :=
  match v with
  | VStr t => res_map VStr (str_format t arg)
  | _ => Raise AttributeError
  end.

(** ** The collaborators of the gateway

    The modules [const], [db], [circuits], [sensors] and the connector are
    not part of the gateway module; the gateway is written against them, and
    so is this development.  Their interfaces follow the contract the
    specification gives them: the transport is an asynchronous fetch by path
    that delivers a value or fails with a device error, the schema store
    hands out independent schemas or none, and the other components receive
    read-only references to schema data and never change the gateway
    state. *)

(** The names imported from [bosch_thermostat_client.const]. *)
Class Const : Type := {
  GATEWAY : string;
  HC : string;
  DHW : string;
  SC : string;
  SENSORS : string;
  SENSOR : string;
  HEATING_CIRCUITS : string;
  DHW_CIRCUITS : string;
  FIRMWARE_VERSION : string;
  DATE : string;
  ID : string;
  MODELS : string;
  NAME : string;
  REFS : string;
  TYPE : string;
  UUID : string;
  VALUE : string;
  CIRCUIT_TYPES : list (string * string);
  ROOT_PATHS : list string
}.

(** The connector: [await connector.get(path)] either delivers a response or
    fails with [DeviceException] ([None] below), and may change the state of
    the device and of the connection.  It also takes a timeout and shows its
    encryption key. *)
Class Connector : Type := {
  Conn : Type;
  conn_get : value -> Conn -> option value * Conn;
  conn_set_timeout : value -> Conn -> Conn;
  conn_encryption_key : Conn -> value
}.

(** The schema store of [bosch_thermostat_client.db].  [get_initial_db] is
    called with the device type by [get_base_db] and without any argument by
    [custom_initialize]; what the call without argument gives, a schema or
    the [TypeError] of a missing argument, is the store's to say. *)
Class SchemaStore : Type := {
  get_initial_db : value -> list (string * value);
  get_initial_db_no_argument : res (list (string * value));
  get_db_of_firmware : value -> value -> option (list (string * value));
  get_custom_db : value -> value -> list (string * value)
}.

(** The capability collections [Circuits] and [Sensors].  A collection is
    handed the connector and read-only schema data; [initialize] updates the
    collection object in place, also when it ends in an exception, and talks
    to the device. *)
Class Collections `{Connector} : Type := {
  Circuit : Type;
  Circuits : Type;
  Circuits_new : string -> value -> value -> Circuits;
  Circuits_initialize :
    Circuits -> option (list (string * value)) -> Conn -> (res unit * Circuits) * Conn;
  Circuits_circuits : Circuits -> list Circuit;
  Circuits_get_items : Circuits -> list Circuit;
  Sensor : Type;
  Sensors : Type;
  Sensors_new : value -> value -> Sensors;
  Sensors_sensors : Sensors -> list Sensor;
  Sensors_get_items : Sensors -> list Sensor
}.

(** What [self._data] holds under a key. *)
Inductive entry `{Collections} : Type :=
| EVal (v : value)
| ECircuits (c : Circuits)
| ESensors (s : Sensors).

(** What a concrete device family supplies: the attributes [device_type]
    and [_access_token], which [BaseGateway] reads and never sets, and the
    operations [_update_info] and [get_device_model], which in [BaseGateway]
    raise [NotImplementedError].  The operations work on the part of the
    gateway they own, [self._data] and [self._bus_type], and on the
    connector. *)
Class Family `{Collections} : Type := {
  device_type : value;
  _access_token : value;
  _update_info :
    value -> gmap string entry * value -> Conn ->
    (res unit * (gmap string entry * value)) * Conn;
  get_device_model :
    list (string * value) -> gmap string entry * value -> Conn ->
    (res value * (gmap string entry * value)) * Conn
}.

(** ** The gateway *)

Section Gateway.
Context `{K : Const} `{S : SchemaStore} `{F : Family}.

Record Gateway : Type := mkGateway {
  _host : string;
  _data : gmap string entry;
  _firmware_version : value;
  _device : value;
  _db : option (list (string * value));
  _initialized : bool;
  _bus_type : value
}.

(** The connector state and the requests this module and the tree prober
    have sent through it, oldest first. *)
Record World : Type := mkWorld {
  conn : Conn;
  fetches : list value
}.

(** [BaseGateway.__init__] *)
Definition init (host : string) : Gateway :=
  {| _host := host;
     _data :=
       <[SENSORS := EVal VNone]>
         (<[DHW := EVal VNone]>
            (<[HC := EVal VNone]>
               (<[GATEWAY := EVal (VDict [])]> ∅)));
     _firmware_version := VNone;
     _device := VNone;
     _db := None;
     _initialized := false;
     _bus_type := VNone |}.

Definition set_data (d : gmap string entry) (g : Gateway) : Gateway :=
  {| _host := _host g; _data := d; _firmware_version := _firmware_version g;
     _device := _device g; _db := _db g; _initialized := _initialized g;
     _bus_type := _bus_type g |}.
Definition set_firmware_version (v : value) (g : Gateway) : Gateway :=
  {| _host := _host g; _data := _data g; _firmware_version := v;
     _device := _device g; _db := _db g; _initialized := _initialized g;
     _bus_type := _bus_type g |}.
Definition set_device (v : value) (g : Gateway) : Gateway :=
  {| _host := _host g; _data := _data g; _firmware_version := _firmware_version g;
     _device := v; _db := _db g; _initialized := _initialized g;
     _bus_type := _bus_type g |}.
Definition set_db (d : option (list (string * value))) (g : Gateway) : Gateway :=
  {| _host := _host g; _data := _data g; _firmware_version := _firmware_version g;
     _device := _device g; _db := d; _initialized := _initialized g;
     _bus_type := _bus_type g |}.
Definition set_initialized (b : bool) (g : Gateway) : Gateway :=
  {| _host := _host g; _data := _data g; _firmware_version := _firmware_version g;
     _device := _device g; _db := _db g; _initialized := b;
     _bus_type := _bus_type g |}.
Definition set_bus_type (v : value) (g : Gateway) : Gateway :=
  {| _host := _host g; _data := _data g; _firmware_version := _firmware_version g;
     _device := _device g; _db := _db g; _initialized := _initialized g;
     _bus_type := v |}.

(** *** Methods as state transformers that may raise

    A method runs on the gateway object and the world; an exception leaves
    the changes made so far in place. *)

Definition M (A : Type) : Type := Gateway * World -> res A * (Gateway * World).

Definition ret {A} (a : A) : M A := fun s => (Ok a, s).
Definition raise {A} (e : exn) : M A := fun s => (Raise e, s).
Definition bind {A B} (m : M A) (k : A -> M B) : M B :=
  fun s =>
    match m s with
    | (Ok a, s') => k a s'
    | (Raise e, s') => (Raise e, s')
    end.
Definition lift {A} (r : res A) : M A := fun s => (r, s).
Definition self : M Gateway := fun s => (Ok (fst s), s).
Definition update (f : Gateway -> Gateway) : M unit :=
  fun s => (Ok tt, (f (fst s), snd s)).
(** A synchronous read of the object. *)
Definition pure {A} (f : Gateway -> res A) : M A := fun s => (f (fst s), s).

(** [try: m  except DeviceException: h] *)
Definition try_except {A} (m : M A) (h : M A) : M A :=
  fun s =>
    match m s with
    | (Raise DeviceException, s') => h s'
    | r => r
    end.

(** [await self._connector.get(path)] *)
Definition connector_get (path : value) : M value :=
  fun s =>
    let '(r, k) := conn_get path (conn (snd s)) in
    let w := {| conn := k; fetches := (fetches (snd s) ++ [path])%list |} in
    match r with
    | Some v => (Ok v, (fst s, w))
    | None => (Raise DeviceException, (fst s, w))
    end.

(** A family operation or a collection running against the connector. *)
Definition on_conn {A} (f : Conn -> A * Conn) : World -> A * World :=
  fun w => let '(a, k) := f (conn w) in (a, {| conn := k; fetches := fetches w |}).

Definition hook {A}
    (h : gmap string entry * value -> Conn ->
         (res A * (gmap string entry * value)) * Conn) : M A :=
  fun s =>
    let g := fst s in
    let '((r, (d, b)), w) := on_conn (h (_data g, _bus_type g)) (snd s) in
    (r, (set_bus_type b (set_data d g), w)).
End Gateway.

Declare Scope gw_scope.
Delimit Scope gw_scope with gw.
Notation "'let*' x := m 'in' k" := (bind m (fun x => k))
  (at level 10, x name, m at level 100, k at level 200) : gw_scope.
Notation "m ;; k" := (bind m (fun _ => k))
  (at level 100, k at level 200, right associativity) : gw_scope.

Section Operations.
Context `{R : Runtime} `{K : Const} `{S : SchemaStore} `{F : Family}.
Local Open Scope gw_scope.

(** *** Bootstrap *)

Definition get_base_db : list (string * value) :=
  get_initial_db device_type.

(** [self._data[key]] *)
Definition data_item (key : string) (g : Gateway) : res entry :=
  match _data g !! key with
  | Some e => Ok e
  | None => Raise KeyError
  end.

(** Operators applied to an entry of [self._data]: a collection object is
    neither a container nor a mapping. *)
Definition entry_get (e : entry) (k : string) : res value :=
  match e with
  | EVal v => py_get v k
  | _ => Raise AttributeError
  end.
Definition entry_in (k : string) (e : entry) : res bool :=
  match e with
  | EVal v => py_in k v
  | _ => Raise TypeError
  end.
Definition entry_getitem (e : entry) (k : string) : res value :=
  match e with
  | EVal v => py_getitem v k
  | _ => Raise TypeError
  end.
(** [e[k] = v] *)
Definition entry_setitem (e : entry) (k : string) (v : value) : res entry :=
  match e with
  | EVal (VDict d) => Ok (EVal (VDict (dict_set k v d)))
  | _ => Raise TypeError
  end.

(** [self._data[GATEWAY][key] = v] *)
Definition set_info (key : string) (v : value) : M unit :=
  let* e := pure (data_item GATEWAY) in
  let* e' := lift (entry_setitem e key v) in
  update (fun g => set_data (<[GATEWAY := e']> (_data g)) g).

(** The base-schema sections merged into a bound schema:
    [initial_db.pop(MODELS, None); self._db.update(initial_db)]. *)
Definition merge_db (db initial_db : list (string * value))
  : list (string * value) :=
  dict_update db (dict_pop MODELS initial_db).


Definition initialize : M unit :=
  let initial_db := get_base_db in
  hook (_update_info
          (match dict_get GATEWAY initial_db with Some v => v | None => VNone end)) ;;
  let* info := pure (data_item GATEWAY) in
  let* fw := lift (entry_get info FIRMWARE_VERSION) in
  update (set_firmware_version fw) ;;
  let* device := hook (get_device_model initial_db) in
  update (set_device device) ;;
  let* has_value :=
    lift (if truthy device then py_in VALUE device else Ok false) in
  if has_value : bool then
    let* ty := lift (py_getitem device TYPE) in
    let db := get_db_of_firmware ty fw in
    update (set_db db) ;;
    match db with
    | Some (b :: d) =>
        update (set_db (Some (merge_db (b :: d) initial_db))) ;;
        update (set_initialized true)
    | _ => ret tt
    end
  else ret tt.

Definition custom_initialize (extra_db : value) : M unit :=
  let* g := self in
  if truthy (_firmware_version g) then
    let db := get_custom_db (_firmware_version g) extra_db in
    update (set_db (Some db)) ;;
    let* initial_db := lift get_initial_db_no_argument in
    update (set_db (Some (merge_db db initial_db))) ;;
    update (set_initialized true)
  else ret tt.

(** [BaseGateway.device_model], left to the device family. *)
Definition device_model : res value := Raise NotImplementedError.

(** *** Read accessors *)

Definition host (g : Gateway) : string := _host g.

Definition device_name (g : Gateway) : res value :=
  if truthy (_device g) then py_get (_device g) NAME else Ok VNone.

Definition bus_type (g : Gateway) : value := _bus_type g.

(** [obj.get_items()] *)
Definition attr_get_items (e : entry) : res (list Circuit + list Sensor) :=
  match e with
  | ECircuits c => Ok (inl (Circuits_get_items c))
  | ESensors s => Ok (inr (Sensors_get_items s))
  | EVal _ => Raise AttributeError
  end.

Definition get_items (data_type : string) (g : Gateway)
  : res (list Circuit + list Sensor) :=
  match _data g !! data_type with
  | Some e => attr_get_items e
  | None => Raise KeyError
  end.

Definition database (g : Gateway) : option (list (string * value)) := _db g.

Definition set_timeout (timeout : value) : M unit :=
  fun s =>
    (Ok tt,
     (fst s, {| conn := conn_set_timeout timeout (conn (snd s));
                fetches := fetches (snd s) |})).

Definition access_token : value := _access_token.

Definition access_key : M value :=
  fun s => (Ok (conn_encryption_key (conn (snd s))), s).

(** [obj.circuits] *)
Definition attr_circuits (e : entry) : res (list Circuit) :=
  match e with
  | ECircuits c => Ok (Circuits_circuits c)
  | _ => Raise AttributeError
  end.

(** [obj.sensors] *)
Definition attr_sensors (e : entry) : res (list Sensor) :=
  match e with
  | ESensors s => Ok (Sensors_sensors s)
  | _ => Raise AttributeError
  end.

Definition heating_circuits (g : Gateway) : res (list Circuit) :=
  match data_item HC g with
  | Ok e => attr_circuits e
  | Raise x => Raise x
  end.

(** [None] is Python's [None]. *)
Definition get_circuits (ctype : string) (g : Gateway)
  : res (option (list Circuit)) :=
  match _data g !! ctype with
  | Some e => res_map Some (attr_circuits e)
  | None => Ok None
  end.

Definition dhw_circuits (g : Gateway) : res (list Circuit) :=
  match data_item DHW g with
  | Ok e => attr_circuits e
  | Raise x => Raise x
  end.

Definition solar_circuits (g : Gateway) : res (list Circuit) :=
  match data_item SC g with
  | Ok e => attr_circuits e
  | Raise x => Raise x
  end.

Definition sensors (g : Gateway) : res (list Sensor) :=
  match data_item SENSORS g with
  | Ok e => attr_sensors e
  | Raise x => Raise x
  end.

Definition firmware (g : Gateway) : value := _firmware_version g.

Definition get_info (key : string) (g : Gateway) : res value :=
  match data_item GATEWAY g with
  | Ok e =>
      match entry_in key e with
      | Ok true => entry_getitem e key
      | Ok false => Ok VNone
      | Raise x => Raise x
      end
  | Raise x => Raise x
  end.

Definition uuid (g : Gateway) : res value := get_info UUID g.

(** *** Operations on the device *)

(** [self._db[key]] *)
Definition db_item (key : string) (g : Gateway) : res value :=
  match _db g with
  | Some d => py_getitem (VDict d) key
  | None => Raise TypeError
  end.

(** [self._db.get(key)] *)
Definition db_get (key : string) (g : Gateway) : res value :=
  match _db g with
  | Some d => py_get (VDict d) key
  | None => Raise AttributeError
  end.

Definition current_date : M value :=
  let* section := pure (db_item GATEWAY) in
  let* path := lift (py_get section DATE) in
  let* response := connector_get path in
  let* v := lift (py_get response VALUE) in
  set_info DATE v ;;
  lift (py_get response VALUE).

(** [await self._data[circ_type].initialize(self._db, self.current_date)]
    on the collection object [c] stored under [circ_type]: the object is
    updated where it is stored, whatever the outcome. *)
Definition collection_initialize (circ_type : string) (c : Circuits) : M unit :=
  fun s =>
    let '((r, c'), w) := on_conn (Circuits_initialize c (_db (fst s))) (snd s) in
    (r, (set_data (<[circ_type := ECircuits c']> (_data (fst s))) (fst s), w)).

Definition initialize_circuits (circ_type : string)
  : M (option (list Circuit)) :=
  update (fun g =>
    set_data (<[circ_type :=
                 ECircuits (Circuits_new circ_type (_bus_type g) device_type)]>
                (_data g)) g) ;;
  let* e := pure (data_item circ_type) in
  match e with
  | ECircuits c =>
      collection_initialize circ_type c ;;
      pure (get_circuits circ_type)
  | _ => raise AttributeError
  end.

(** [None] for [choosed_sensors] is the default argument. *)
Definition initialize_sensors (choosed_sensors : value) : M (list Sensor) :=
  let* choosed :=
    if negb (truthy choosed_sensors) then pure (db_get SENSORS)
    else ret choosed_sensors in
  let* section := pure (db_item SENSORS) in
  update (fun g =>
    set_data (<[SENSORS := ESensors (Sensors_new choosed section)]> (_data g)) g) ;;
  pure sensors.

Definition obj_truthy {A} (o : option (list A)) : bool :=
  match o with
  | Some (_ :: _) => true
  | _ => false
  end.

(** The loop of [get_capabilities] over the remaining circuit types. *)
Fixpoint probe_circuits (todo : list string) (supported : list string)
  : M (list string) :=
  match todo with
  | [] => ret supported
  | circuit :: rest =>
      let* supported' :=
        try_except
          (let* circuit_object := initialize_circuits circuit in
           ret (if obj_truthy circuit_object
                then (supported ++ [circuit])%list else supported))
          (ret supported) in
      probe_circuits rest supported'
  end.

Definition get_capabilities : M (list string) :=
  let* supported := probe_circuits (dict_keys CIRCUIT_TYPES) [] in
  initialize_sensors VNone ;;
  ret (supported ++ [SENSOR])%list.

(** *** Diagnostics *)

(** Modelled from the spec: [helper.deep_into], the tree prober, is not part
    of the gateway module.  By section 4.4 it fetches the path; a response
    that is a list of child-path descriptors has each child fetched in turn,
    recursively and in the order given, the results assembled into a
    sequence; any other response is a terminal value and is returned as it
    is.  A descriptor carries its path under [ID].  The nesting depth
    Python allows is [depth]. *)
Definition descriptor_path (item : value) : option value :=
  match item with
  | VDict d => dict_get ID d
  | _ => None
  end.

Definition child_paths (response : value) : option (list value) :=
  match response with
  | VList items => mapM descriptor_path items
  | _ => None
  end.

Fixpoint deep_into (depth : nat) (uri : value) (_list : list value) : M value :=
  match depth with
  | O => raise RecursionError
  | Datatypes.S d =>
      let* response := connector_get uri in
      match child_paths response with
      | Some paths =>
          let* results :=
            (fix children (ps : list value) (acc : list value) : M (list value) :=
               match ps with
               | [] => ret acc
               | p :: ps' =>
                   let* r := deep_into d p [] in
                   children ps' (acc ++ [r])%list
               end) paths _list in
          ret (VList results)
      | None => ret response
      end
  end.

(** The two scans, for a tree prober already given
    [self._connector.get]: [prober uri _list] is
    [await deep_into(uri, _list, self._connector.get)]. *)
Section Scans.
Variable prober : value -> list value -> M value.

Fixpoint rawscan_loop (roots : list string) (rawlist : list value)
  : M (list value) :=
  match roots with
  | [] => ret rawlist
  | root :: rest =>
      let* r := prober (VStr root) [] in
      rawscan_loop rest (rawlist ++ [r])%list
  end.

Definition rawscan_with : M (list value) :=
  rawscan_loop ROOT_PATHS [].

Fixpoint smallscan_loop (format_string : string)
    (items : list value) (rawlist : list value) : M (list value) :=
  match items with
  | [] => ret rawlist
  | item :: rest =>
      let* template := lift (py_getitem item ID) in
      let* uri := lift (py_format template format_string) in
      let* r := prober uri [] in
      smallscan_loop format_string rest (rawlist ++ [r])%list
  end.

(** The reference set and the instance label [smallscan] selects. *)
Definition smallscan_refs (_type : string) : M (value * string) :=
  if String.eqb _type HC then
    let* section := pure (db_get HEATING_CIRCUITS) in
    let* refs := lift (py_get section REFS) in
    ret (refs, "hc1")
  else if String.eqb _type DHW then
    let* section := pure (db_get DHW_CIRCUITS) in
    let* refs := lift (py_get section REFS) in
    ret (refs, "dhw1")
  else
    let* refs := pure (db_get SENSORS) in
    ret (refs, "").

Definition smallscan_with (_type : string) : M (list value) :=
  let* sel := smallscan_refs _type in
  let* items := lift (py_values (fst sel)) in
  smallscan_loop (snd sel) items [].
End Scans.

(** [rawscan] and [smallscan] with the prober above. *)
Definition rawscan (depth : nat) : M (list value) :=
  rawscan_with (deep_into depth).

Definition smallscan (depth : nat) (_type : string) : M (list value) :=
  smallscan_with (deep_into depth) _type.

Definition check_connection : M value :=
  try_except
    (let* g := self in
     if negb (_initialized g) then initialize
     else
       let* section := pure (db_item GATEWAY) in
       let* path := lift (py_getitem section UUID) in
       let* response := connector_get path in
       let* has_value := lift (py_in VALUE response) in
       if has_value : bool then
         let* v := lift (py_getitem response VALUE) in
         set_info UUID v
       else ret tt)
    (ret tt) ;;
  pure uuid.

Definition custom_test : M unit :=
  let* response := connector_get (VStr "/gateway/uuid") in
  ret tt.

(** *** The public surface as a transition system *)

Inductive accessor : Type :=
| AHost
| ADeviceName
| ABusType
| AGetItems (data_type : string)
| ADatabase
| AAccessToken
| AHeatingCircuits
| AGetCircuits (ctype : string)
| ADhwCircuits
| ASolarCircuits
| ASensors
| AFirmware
| AUuid
| AGetInfo (key : string).

Definition discard {A} (r : res A) : res unit := res_map (fun _ => tt) r.

Definition read (a : accessor) (g : Gateway) : res unit :=
  match a with
  | AHost => Ok tt
  | ADeviceName => discard (device_name g)
  | ABusType => Ok tt
  | AGetItems data_type => discard (get_items data_type g)
  | ADatabase => Ok tt
  | AAccessToken => Ok tt
  | AHeatingCircuits => discard (heating_circuits g)
  | AGetCircuits ctype => discard (get_circuits ctype g)
  | ADhwCircuits => discard (dhw_circuits g)
  | ASolarCircuits => discard (solar_circuits g)
  | ASensors => discard (sensors g)
  | AFirmware => Ok tt
  | AUuid => discard (uuid g)
  | AGetInfo key => discard (get_info key g)
  end.

Inductive call : Type :=
| CInitialize
| CCustomInitialize (extra_db : value)
| CGetCapabilities
| CCheckConnection
| CCurrentDate
| CRawscan (depth : nat)
| CSmallscan (depth : nat) (_type : string)
| CInitializeCircuits (circ_type : string)
| CInitializeSensors (choosed_sensors : value)
| CCustomTest
| CSetTimeout (timeout : value)
| CAccessKey
| CRead (a : accessor).

Definition forget {A} (m : M A) : M unit := fun s => (discard (fst (m s)), snd (m s)).

Definition run (c : call) : M unit :=
  match c with
  | CInitialize => initialize
  | CCustomInitialize extra_db => custom_initialize extra_db
  | CGetCapabilities => forget get_capabilities
  | CCheckConnection => forget check_connection
  | CCurrentDate => forget current_date
  | CRawscan depth => forget (rawscan depth)
  | CSmallscan depth _type => forget (smallscan depth _type)
  | CInitializeCircuits circ_type => forget (initialize_circuits circ_type)
  | CInitializeSensors choosed => forget (initialize_sensors choosed)
  | CCustomTest => custom_test
  | CSetTimeout timeout => set_timeout timeout
  | CAccessKey => forget access_key
  | CRead a => pure (read a)
  end.

(** The calls that bind a schema. *)
Definition binds_schema (c : call) : bool :=
  match c with
  | CInitialize | CCustomInitialize _ => true
  | _ => false
  end.

(** The states a gateway object can be in: freshly constructed, or after
    any call in any world. *)
Inductive reachable : Gateway -> Prop :=
| reach_init (host : string) : reachable (init host)
| reach_call (g : Gateway) (w : World) (c : call) :
    reachable g -> reachable (fst (snd (run c (g, w)))).
End Operations.

(** ** Notions used to state the properties *)

Section Notions.
Context `{R : Runtime} `{K : Const} `{S : SchemaStore} `{F : Family}.

(** [m] ends with the component [f] of the gateway as it found it. *)
Definition keeps {A X} (f : Gateway -> X) (m : M A) : Prop :=
  forall s, f (fst (snd (m s))) = f (fst s).

(** A component that writing [self._data] does not touch. *)
Definition beside_data {X} (f : Gateway -> X) : Prop :=
  forall d g, f (set_data d g) = f g.


Definition exn_is_device (e : exn) : bool :=
  match e with DeviceException => true | _ => false end.

(** [self._db[GATEWAY][UUID]], the path [check_connection] reads again. *)
Definition uuid_path (g : Gateway) : res value :=
  match db_item GATEWAY g with
  | Ok section => py_getitem section UUID
  | Raise e => Raise e
  end.

(** [self._data[GATEWAY][UUID] = v] *)
Definition cache_uuid (v : value) (g : Gateway) : res Gateway :=
  match data_item GATEWAY g with
  | Ok e =>
      match entry_setitem e UUID v with
      | Ok e' => Ok (set_data (<[GATEWAY := e']> (_data g)) g)
      | Raise x => Raise x
      end
  | Raise x => Raise x
  end.




(** *** Discovery seen from the device

    What [get_capabilities] does depends on the gateway only through the
    bus type and the bound schema.  [discover] is the sequence of category
    discoveries as the device experiences them: each category of the list in
    turn on a new collection object, up to and including the first one that
    ends in an exception other than [DeviceException]. *)

Definition tolerated (r : res unit) : bool :=
  match r with
  | Ok _ | Raise DeviceException => true
  | Raise _ => false
  end.

Fixpoint discover (todo : list string) (bus : value)
    (db : option (list (string * value))) (k : Conn)
  : list (string * (res unit * Circuits)) * Conn :=
  match todo with
  | [] => ([], k)
  | c :: rest =>
      let '(rc, k') := Circuits_initialize (Circuits_new c bus device_type) db k in
      if tolerated (fst rc) then
        let '(tr, k'') := discover rest bus db k' in ((c, rc) :: tr, k'')
      else ([(c, rc)], k')
  end.

(** A discovery that completed and found at least one instance. *)
Definition reported (t : string * (res unit * Circuits)) : bool :=
  match fst (snd t) with
  | Ok _ => match Circuits_circuits (snd (snd t)) with [] => false | _ => true end
  | Raise _ => false
  end.

(** The outcome of the loop over the categories. *)
Fixpoint verdict (supported : list string)
    (tr : list (string * (res unit * Circuits))) : res (list string) :=
  match tr with
  | [] => Ok supported
  | t :: tr' =>
      match fst (snd t) with
      | Ok _ =>
          verdict (if reported t then supported ++ [fst t] else supported)%list tr'
      | Raise DeviceException => verdict supported tr'
      | Raise e => Raise e
      end
  end.

(** The collection objects left under their category keys. *)
Definition stored (tr : list (string * (res unit * Circuits)))
  : list (string * entry) :=
  map (fun t => (fst t, ECircuits (snd (snd t)))) tr.

(** Assignments [self._data[k] = e], in order. *)
Definition write_all (l : list (string * entry)) (d : gmap string entry)
  : gmap string entry :=
  foldl (fun d kv => <[fst kv := snd kv]> d) d l.

(** The result of [get_capabilities], the assignments to [self._data] it
    makes and the connector state it leaves. *)
Definition survey (bus : value) (db : option (list (string * value))) (k : Conn)
  : res (list string) * list (string * entry) * Conn :=
  let '(tr, k') := discover (dict_keys CIRCUIT_TYPES) bus db k in
  match verdict [] tr with
  | Raise e => (Raise e, stored tr, k')
  | Ok supported =>
      match db with
      | None => (Raise AttributeError, stored tr, k')
      | Some d =>
          match dict_get SENSORS d with
          | None => (Raise KeyError, stored tr, k')
          | Some section =>
              (Ok (supported ++ [SENSOR])%list,
               (stored tr ++ [(SENSORS, ESensors (Sensors_new section section))])%list,
               k')
          end
      end
  end.
End Notions.

(** ** A concrete device family

    One instance of every collaborator, small enough to run: a device that
    answers from a table of paths, a schema store with one firmware, and
    collections that list what the device reports. *)

Module Demo.

(** The formatter of the demonstration.  It fills the automatic field [{}]
    and the indexed fields [{0}], [{00}], ... with the one argument and
    unfolds the escapes [{{] and [}}], as [str.format] does: a second
    automatic field or a higher index has no argument ([IndexError]), a named
    field has none either ([KeyError]), and mixing automatic with explicit
    numbering, a lone brace, an unterminated field or an index too long to
    read is a [ValueError].  Conversions, format specifications and indexing
    do not occur in the templates of the demonstration and are not
    implemented: such a field is answered with [ValueError]. *)

Inductive fmt_mode : Set := FmtFresh | FmtAuto | FmtManual.
Inductive fmt_state : Set :=
| FText
| FOpen
| FField (name : string)
| FClose.

Definition is_digit (c : ascii) : bool :=
  let n := nat_of_ascii c in (48 <=? n)%nat && (n <=? 57)%nat.

Fixpoint all_digits (s : string) : bool :=
  match s with
  | EmptyString => true
  | String c r => is_digit c && all_digits r
  end.

Fixpoint has_spec (s : string) : bool :=
  match s with
  | EmptyString => false
  | String c r =>
      Ascii.eqb c "!" || Ascii.eqb c ":" || Ascii.eqb c "." || Ascii.eqb c "["
      || Ascii.eqb c "{" || has_spec r
  end.

Fixpoint digits_value (s : string) (acc : N) : N :=
  match s with
  | EmptyString => acc
  | String c r => digits_value r (acc * 10 + (N_of_ascii c - 48))%N
  end.

(** Resolve the field [name] under numbering mode [m]: the empty name takes
    the next argument, a decimal index the argument of that index. *)
Definition fmt_field (name : string) (m : fmt_mode) : res fmt_mode :=
  if String.eqb name "" then
    match m with
    | FmtFresh => Ok FmtAuto
    | FmtAuto => Raise IndexError
    | FmtManual => Raise ValueError
    end
  else if has_spec name then Raise ValueError
  else if all_digits name then
    if (9223372036854775807 <? digits_value name 0)%N then Raise ValueError
    else
      match m with
      | FmtAuto => Raise ValueError
      | _ => if (digits_value name 0 =? 0)%N then Ok FmtManual else Raise IndexError
      end
  else Raise KeyError.

Fixpoint fmt_go (arg : string) (st : fmt_state) (m : fmt_mode) (s : string)
  : res string :=
  match s with
  | EmptyString =>
      match st with
      | FText => Ok ""
      | _ => Raise ValueError
      end
  | String c r =>
      match st with
      | FText =>
          if Ascii.eqb c "{" then fmt_go arg FOpen m r
          else if Ascii.eqb c "}" then fmt_go arg FClose m r
          else res_map (String c) (fmt_go arg FText m r)
      | FOpen =>
          if Ascii.eqb c "{" then res_map (String "{") (fmt_go arg FText m r)
          else if Ascii.eqb c "}" then
            match fmt_field "" m with
            | Ok m' => res_map (String.append arg) (fmt_go arg FText m' r)
            | Raise e => Raise e
            end
          else fmt_go arg (FField (String c "")) m r
      | FField name =>
          if Ascii.eqb c "}" then
            match fmt_field name m with
            | Ok m' => res_map (String.append arg) (fmt_go arg FText m' r)
            | Raise e => Raise e
            end
          else fmt_go arg (FField (name ++ String c "")) m r
      | FClose =>
          if Ascii.eqb c "}" then res_map (String "}") (fmt_go arg FText m r)
          else Raise ValueError
      end
  end.

Definition format_fields (template arg : string) : res string :=
  fmt_go arg FText FmtFresh template.

#[export] Instance runtime : Runtime := {|
  str_format := format_fields
|}.

#[export] Instance const : Const := {|
  GATEWAY := "gateway";
  HC := "hc";
  DHW := "dhw";
  SC := "sc";
  SENSORS := "sensors";
  SENSOR := "sensor";
  HEATING_CIRCUITS := "heatingCircuits";
  DHW_CIRCUITS := "dhwCircuits";
  FIRMWARE_VERSION := "versionFirmware";
  DATE := "dateTime";
  ID := "id";
  MODELS := "models";
  NAME := "name";
  REFS := "refs";
  TYPE := "type";
  UUID := "uuid";
  VALUE := "value";
  CIRCUIT_TYPES :=
    [("dhw", "dhwCircuits"); ("hc", "heatingCircuits"); ("sc", "solarCircuits")];
  ROOT_PATHS := ["/gateway"; "/heatingCircuits"]
|}.

(** The device answers the paths of [table]; [budget] is the number of
    requests the link still carries, [None] for a link that stays up. *)
Record device : Type := mkDevice {
  table : list (string * value);
  budget : option nat
}.

Definition answer (path : value) (dv : device) : option value * device :=
  match budget dv with
  | Some O => (None, dv)
  | b =>
      (match path with VStr p => dict_get p (table dv) | _ => None end,
       {| table := table dv; budget := option_map Nat.pred b |})
  end.

#[export] Instance connector : Connector := {|
  Conn := device;
  conn_get := answer;
  conn_set_timeout := fun _ dv => dv;
  conn_encryption_key := fun _ => VStr "5wn3-lpmk-zz4q-8dah"
|}.

Definition base_schema : list (string * value) :=
  [("gateway",
    VDict [("uuid", VStr "/gateway/uuid");
           ("versionFirmware", VStr "/gateway/versionFirmware")]);
   ("models", VDict [("EASYCONTROL", VStr "Easy Control")])].

Definition firmware_schema : list (string * value) :=
  [("gateway",
    VDict [("uuid", VStr "/gateway/uuid");
           ("dateTime", VStr "/gateway/DateTime")]);
   ("heatingCircuits",
    VDict [("refs",
            VDict [("roomtemp",
                    VDict [("id", VStr "/heatingCircuits/{}/roomtemperature")]);
                   ("mode",
                    VDict [("id", VStr "/heatingCircuits/{}/operationMode")])])]);
   ("dhwCircuits",
    VDict [("refs",
            VDict [("temp", VDict [("id", VStr "/dhwCircuits/{}/actualTemp")])])]);
   ("sensors",
    VDict [("outdoor",
            VDict [("id", VStr "/system/sensors/temperatures/outdoor_t1")])])].

(** The store asks for the device type: the call without argument is a
    [TypeError]. *)
#[export] Instance store : SchemaStore := {|
  get_initial_db := fun _ => base_schema;
  get_initial_db_no_argument := Raise TypeError;
  get_db_of_firmware := fun ty fw =>
    match ty, fw with
    | VStr "EASYCONTROL", VStr "04.08.02" => Some firmware_schema
    | _, _ => None
    end;
  get_custom_db := fun _ extra_db =>
    match extra_db with
    | VDict d => dict_update firmware_schema d
    | _ => firmware_schema
    end
|}.

(** The same store with a default for the device type. *)
Definition defaulting_store : SchemaStore := {|
  get_initial_db := fun _ => base_schema;
  get_initial_db_no_argument := Ok base_schema;
  get_db_of_firmware := get_db_of_firmware;
  get_custom_db := get_custom_db
|}.

Record circuits : Type := mkCircuits {
  kind : string;
  found : list value
}.

(** List the instances the device reports under the category's root. *)
Definition circuits_initialize (c : circuits)
    (db : option (list (string * value))) (dv : device)
  : (res unit * circuits) * device :=
  match db, dict_get (kind c) CIRCUIT_TYPES with
  | Some d, Some prefix =>
      if dict_has prefix d then
        match answer (VStr ("/" ++ prefix)) dv with
        | (Some (VList items), dv') =>
            ((Ok tt, {| kind := kind c; found := items |}), dv')
        | (Some _, dv') => ((Ok tt, c), dv')
        | (None, dv') => ((Raise DeviceException, c), dv')
        end
      else ((Ok tt, c), dv)
  | _, _ => ((Ok tt, c), dv)
  end.

#[export] Instance collections : Collections := {|
  Circuit := value;
  Circuits := circuits;
  Circuits_new := fun circ_type _ _ => {| kind := circ_type; found := [] |};
  Circuits_initialize := circuits_initialize;
  Circuits_circuits := found;
  Circuits_get_items := found;
  Sensor := string;
  Sensors := list string;
  Sensors_new := fun choosed _ =>
    match choosed with VDict d => dict_keys d | _ => [] end;
  Sensors_sensors := fun s => s;
  Sensors_get_items := fun s => s
|}.

(** Read every path of the gateway-info section and keep the values that
    arrive; a path that fails is skipped. *)
Fixpoint update_info_loop (items : list (string * value))
    (st : gmap string entry * value) (dv : device)
  : (gmap string entry * value) * device :=
  match items with
  | [] => (st, dv)
  | (name, uri) :: rest =>
      let '(r, dv') := answer uri dv in
      let st' :=
        match r, fst st !! "gateway" with
        | Some (VDict resp), Some (EVal (VDict info)) =>
            match dict_get "value" resp with
            | Some v =>
                (<["gateway" := EVal (VDict (dict_set name v info))]> (fst st),
                 snd st)
            | None => st
            end
        | _, _ => st
        end in
      update_info_loop rest st' dv'
  end.

#[export] Instance family : Family := {|
  device_type := VStr "EASYCONTROL";
  _access_token := VStr "Ct7ZR03b_";
  _update_info := fun section st dv =>
    match section with
    | VDict items =>
        let '(st', dv') := update_info_loop (dict_items items) st dv in
        ((Ok tt, st'), dv')
    | _ => ((Raise AttributeError, st), dv)
    end;
  get_device_model := fun _ st dv =>
    match answer (VStr "/gateway/model") dv with
    | (Some r, dv') => ((Ok r, st), dv')
    | (None, dv') => ((Raise DeviceException, st), dv')
    end
|}.

(** A unit with two heating circuits, no solar circuit, and a hot-water
    category that does not answer. *)
Definition unit_table : list (string * value) :=
  [("/gateway/uuid", VDict [("id", VStr "/gateway/uuid"); ("value", VStr "101506113")]);
   ("/gateway/versionFirmware", VDict [("value", VStr "04.08.02")]);
   ("/gateway/model",
    VDict [("value", VStr "CT200"); ("type", VStr "EASYCONTROL");
           ("name", VStr "Easy Control")]);
   ("/heatingCircuits",
    VList [VDict [("id", VStr "/heatingCircuits/hc1")];
           VDict [("id", VStr "/heatingCircuits/hc2")]]);
   ("/heatingCircuits/hc1", VDict [("value", VStr "hc1")]);
   ("/heatingCircuits/hc2", VDict [("value", VStr "hc2")]);
   ("/heatingCircuits/hc1/roomtemperature", VDict [("value", VInt 21)]);
   ("/heatingCircuits/hc1/operationMode",
    VList [VDict [("id", VStr "/heatingCircuits/hc1/operationMode/current")]]);
   ("/heatingCircuits/hc1/operationMode/current", VDict [("value", VStr "auto")]);
   ("/solarCircuits", VList []);
   ("/system/sensors/temperatures/outdoor_t1", VDict [("value", VInt 7)]);
   ("/gateway", VDict [("value", VStr "gateway")])].

Definition online : World :=
  {| conn := {| table := unit_table; budget := None |}; fetches := [] |}.

(** The link drops after [n] more requests. *)
Definition drops_after (n : nat) : World :=
  {| conn := {| table := unit_table; budget := Some n |}; fetches := [] |}.

(** The same link with a unit of a family the store does not know behind
    it. *)
Definition foreign : World :=
  {| conn :=
       {| table :=
            [("/gateway/uuid", VDict [("value", VStr "101506113")]);
             ("/gateway/versionFirmware", VDict [("value", VStr "04.08.02")]);
             ("/gateway/model",
              VDict [("value", VStr "RC300"); ("type", VStr "NEFIT")])];
          budget := None |};
     fetches := [] |}.

(** A unit whose model descriptor carries no value. *)
Definition anonymous : World :=
  {| conn :=
       {| table :=
            [("/gateway/uuid", VDict [("value", VStr "101506113")]);
             ("/gateway/versionFirmware", VDict [("value", VStr "04.08.02")]);
             ("/gateway/model", VDict [("type", VStr "EASYCONTROL")])];
          budget := None |};
     fetches := [] |}.


(** A link on which only the clock answers. *)
Definition timed : World :=
  {| conn :=
       {| table := [("/gateway/DateTime", VDict [("value", VStr "2021-03-04T10:05:00")])];
          budget := None |};
     fetches := [] |}.

Definition fresh : Gateway := init "192.168.0.10".

(** The gateway after a first [initialize] against the unit. *)
Definition ready : Gateway := fst (snd (initialize (fresh, online))).


(** The gateway after [initialize] against the unit without a model value:
    its firmware version is known, and it is not initialized. *)
Definition named : Gateway := fst (snd (initialize (fresh, anonymous))).




(** The gateway with the firmware schema bound as the store holds it, date
    path included. *)
Definition clocked : Gateway := set_db (Some firmware_schema) ready.

End Demo.

(** * Properties *)

(** Unfold the plumbing of a method down to the state it passes along. *)
Ltac run_m :=
  unfold bind, hook, on_conn, update, pure, lift, ret, raise, self in *;
  simpl in *.

(** ** Dictionaries *)

Section DictFacts.
Context {V : Type}.
Implicit Types (d : list (string * V)) (k : string) (v : V).

Lemma dict_get_app k d1 d2 :
  dict_get k (d1 ++ d2) =
  match dict_get k d2 with Some x => Some x | None => dict_get k d1 end.
Proof.
  induction d1 as [|[k' v'] d1 IH]; simpl.
  - by destruct (dict_get k d2).
  - rewrite IH. by destruct (dict_get k d2).
Qed.

Lemma dict_get_replace k k' v d :
  dict_get k' (dict_replace k v d) =
  if String.eqb k' k then (if dict_has k d then Some v else None)
  else dict_get k' d.
Proof.
  unfold dict_has.
  induction d as [|[k0 v0] d IH]; simpl.
  - by destruct (String.eqb k' k).
  - destruct (String.eqb k k0) eqn:E0; simpl; rewrite IH.
    + apply String.eqb_eq in E0 as ->.
      destruct (String.eqb k' k0) eqn:E1.
      * by destruct (dict_get k0 d).
      * done.
    + destruct (String.eqb k' k) eqn:E1.
      * apply String.eqb_eq in E1 as ->. rewrite E0.
        by destruct (dict_get k d).
      * done.
Qed.

Lemma dict_get_set k k' v d :
  dict_get k' (dict_set k v d) =
  if String.eqb k' k then Some v else dict_get k' d.
Proof.
  unfold dict_set. destruct (dict_has k d) eqn:E.
  - rewrite dict_get_replace, E. done.
  - rewrite dict_get_app. simpl.
    destruct (String.eqb k' k) eqn:E1; [done|].
    by destruct (dict_get k' d).
Qed.

Lemma dict_get_update k d other :
  dict_get k (dict_update d other) =
  match dict_get k other with Some x => Some x | None => dict_get k d end.
Proof.
  unfold dict_update. revert d.
  induction other as [|[k0 v0] o IH]; intros d; simpl; [done|].
  rewrite IH. destruct (dict_get k o); [done|].
  rewrite dict_get_set. by destruct (String.eqb k k0).
Qed.


Lemma dict_get_items k d : dict_get k (dict_items d) = dict_get k d.
Proof.
  unfold dict_items. rewrite dict_get_update. simpl.
  by destruct (dict_get k d).
Qed.

Lemma dict_get_None k d : dict_get k d = None <-> ~ In k (map fst d).
Proof.
  induction d as [|[k0 v0] d IH]; simpl.
  - tauto.
  - destruct (dict_get k d) eqn:E.
    + split; [discriminate|]. intros Hn. exfalso.
      assert (Hin : ~ In k (map fst d)) by tauto.
      apply IH in Hin. discriminate.
    + destruct (String.eqb k k0) eqn:E0.
      * apply String.eqb_eq in E0 as ->. split; [discriminate|tauto].
      * apply String.eqb_neq in E0. split; [|done].
        intros _ [Heq|Hin]; [congruence|]. by apply IH.
Qed.

Lemma dict_replace_keys k v d : map fst (dict_replace k v d) = map fst d.
Proof.
  induction d as [|[k0 v0] d IH]; simpl; [done|].
  rewrite IH. by destruct (String.eqb k k0).
Qed.

Lemma dict_set_NoDup k v d :
  List.NoDup (map fst d) -> List.NoDup (map fst (dict_set k v d)).
Proof.
  intros Hd. unfold dict_set, dict_has.
  destruct (dict_get k d) eqn:E.
  - by rewrite dict_replace_keys.
  - rewrite map_app. simpl. apply dict_get_None in E.
    apply NoDup_ListNoDup. apply NoDup_app. repeat split.
    + by apply NoDup_ListNoDup.
    + intros x Hx Hx'. apply list_elem_of_In in Hx.
      apply list_elem_of_In in Hx'. destruct Hx' as [<-|[]]. done.
    + apply NoDup_singleton.
Qed.

Lemma dict_update_NoDup d other :
  List.NoDup (map fst d) -> List.NoDup (map fst (dict_update d other)).
Proof.
  unfold dict_update. revert d.
  induction other as [|[k0 v0] o IH]; intros d Hd; simpl; [done|].
  apply IH. by apply dict_set_NoDup.
Qed.

(** Iteration meets every key once. *)
Lemma dict_keys_NoDup d : List.NoDup (dict_keys d).
Proof. apply dict_update_NoDup. constructor. Qed.
End DictFacts.

(** ** What a method leaves alone *)

Section Frame.
Context `{R : Runtime} `{K : Const} `{S : SchemaStore} `{F : Family}.
Local Open Scope gw_scope.

Lemma keeps_ret {A X} (f : Gateway -> X) (a : A) : keeps f (ret a).
Proof. by intros s. Qed.

Lemma keeps_raise {A X} (f : Gateway -> X) (e : exn) : keeps f (raise e : M A).
Proof. by intros s. Qed.

Lemma keeps_lift {A X} (f : Gateway -> X) (r : res A) : keeps f (lift r).
Proof. by intros s. Qed.

Lemma keeps_pure {A X} (f : Gateway -> X) (p : Gateway -> res A) : keeps f (pure p).
Proof. by intros s. Qed.

Lemma keeps_self {X} (f : Gateway -> X) : keeps f self.
Proof. by intros s. Qed.

Lemma keeps_update {X} (f : Gateway -> X) (u : Gateway -> Gateway) :
  (forall g, f (u g) = f g) -> keeps f (update u).
Proof. intros Hu s. apply Hu. Qed.

Lemma keeps_bind {A B X} (f : Gateway -> X) (m : M A) (k : A -> M B) :
  keeps f m -> (forall a, keeps f (k a)) -> keeps f (bind m k).
Proof.
  intros Hm Hk s. unfold bind. specialize (Hm s).
  destruct (m s) as [[a|e] s']; simpl in *; [|done].
  by rewrite Hk.
Qed.

Lemma keeps_try_except {A X} (f : Gateway -> X) (m h : M A) :
  keeps f m -> keeps f h -> keeps f (try_except m h).
Proof.
  intros Hm Hh s. unfold try_except. specialize (Hm s).
  destruct (m s) as [[a|[]] s']; simpl in *; try done.
  by rewrite Hh.
Qed.

Lemma keeps_forget {A X} (f : Gateway -> X) (m : M A) :
  keeps f m -> keeps f (forget m).
Proof. intros Hm s. apply Hm. Qed.

Lemma keeps_connector_get {X} (f : Gateway -> X) (path : value) :
  keeps f (connector_get path).
Proof.
  intros s. unfold connector_get.
  destruct (conn_get path (conn (snd s))) as [[r|] k]; done.
Qed.

Lemma keeps_hook {A X} (f : Gateway -> X) h :
  (forall d b g, f (set_bus_type b (set_data d g)) = f g) ->
  keeps f (hook h : M A).
Proof.
  intros Hf s. unfold hook, on_conn.
  destruct (h (_data (fst s), _bus_type (fst s)) (conn (snd s)))
    as [[r [d b]] k]. simpl. apply Hf.
Qed.

Lemma keeps_collection_initialize {X} (f : Gateway -> X) circ_type c :
  (forall d g, f (set_data d g) = f g) ->
  keeps f (collection_initialize circ_type c).
Proof.
  intros Hf s. unfold collection_initialize, on_conn.
  destruct (Circuits_initialize c (_db (fst s)) (conn (snd s))) as [[r c'] k].
  simpl. apply Hf.
Qed.

Ltac keeps_step :=
  lazymatch goal with
  | |- keeps _ (ret _) => apply keeps_ret
  | |- keeps _ (raise _) => apply keeps_raise
  | |- keeps _ (lift _) => apply keeps_lift
  | |- keeps _ (pure _) => apply keeps_pure
  | |- keeps _ self => apply keeps_self
  | |- keeps _ (connector_get _) => apply keeps_connector_get
  | |- keeps _ (forget _) => apply keeps_forget
  | |- keeps _ (collection_initialize _ _) =>
      apply keeps_collection_initialize; assumption
  | |- keeps _ (update _) =>
      apply keeps_update; intros;
      first [ match goal with H : beside_data _ |- _ => apply H end | done ]
  | |- keeps _ (try_except _ _) => apply keeps_try_except
  | |- keeps _ (bind _ _) => apply keeps_bind; [|intros]
  | |- keeps _ (match ?x with _ => _ end) => destruct x
  end.

Section BesideData.
Context {X : Type} (f : Gateway -> X) (Hf : beside_data f).

Lemma keeps_set_info key v : keeps f (set_info key v).
Proof. unfold set_info. repeat keeps_step. Qed.

Lemma keeps_current_date : keeps f current_date.
Proof. unfold current_date. repeat (keeps_step || apply keeps_set_info). Qed.

Lemma keeps_initialize_circuits circ_type : keeps f (initialize_circuits circ_type).
Proof. unfold initialize_circuits. repeat keeps_step. Qed.

Lemma keeps_initialize_sensors choosed : keeps f (initialize_sensors choosed).
Proof. unfold initialize_sensors. repeat keeps_step. Qed.

Lemma keeps_probe_circuits todo supported : keeps f (probe_circuits todo supported).
Proof.
  revert supported. induction todo as [|c todo IH]; intros supported; simpl.
  - apply keeps_ret.
  - apply keeps_bind; [|intros; apply IH].
    apply keeps_try_except; [|apply keeps_ret].
    apply keeps_bind; [apply keeps_initialize_circuits|intros; apply keeps_ret].
Qed.

Lemma keeps_get_capabilities : keeps f get_capabilities.
Proof.
  unfold get_capabilities.
  repeat (apply keeps_probe_circuits || apply keeps_initialize_sensors
          || keeps_step).
Qed.

Lemma keeps_deep_into depth uri acc : keeps f (deep_into depth uri acc).
Proof.
  revert uri acc. induction depth as [|d IH]; intros uri acc; simpl.
  - apply keeps_raise.
  - apply keeps_bind; [apply keeps_connector_get|intros response].
    destruct (child_paths response) as [paths|]; [|apply keeps_ret].
    apply keeps_bind; [|intros; apply keeps_ret].
    revert acc. induction paths as [|p ps IHp]; intros acc.
    + apply keeps_ret.
    + apply keeps_bind; [apply IH|intros; apply IHp].
Qed.

Lemma keeps_rawscan depth : keeps f (rawscan depth).
Proof.
  unfold rawscan, rawscan_with. generalize (@nil value).
  induction ROOT_PATHS as [|r rs IH]; intros acc; simpl.
  - apply keeps_ret.
  - apply keeps_bind; [apply keeps_deep_into|intros; apply IH].
Qed.

Lemma keeps_smallscan depth _type : keeps f (smallscan depth _type).
Proof.
  unfold smallscan, smallscan_with.
  apply keeps_bind.
  { unfold smallscan_refs. repeat keeps_step. }
  intros sel. apply keeps_bind; [apply keeps_lift|intros items].
  generalize (@nil value).
  induction items as [|item rest IH]; intros acc; simpl.
  - apply keeps_ret.
  - repeat (apply keeps_deep_into || apply IH || keeps_step).
Qed.

Lemma keeps_custom_test : keeps f custom_test.
Proof. unfold custom_test. repeat keeps_step. Qed.

(** The re-read of [check_connection]. *)
Lemma keeps_check_connection_ready s :
  _initialized (fst s) = true ->
  f (fst (snd (check_connection s))) = f (fst s).
Proof.
  intros Hi. unfold check_connection.
  set (reread :=
         (let* section := pure (db_item GATEWAY) in
          let* path := lift (py_getitem section UUID) in
          let* response := connector_get path in
          let* has_value := lift (py_in VALUE response) in
          if has_value : bool
          then let* v := lift (py_getitem response VALUE) in set_info UUID v
          else ret tt)).
  assert (Hr : keeps f reread).
  { unfold reread. repeat (apply keeps_set_info || keeps_step). }
  assert (Hk : keeps f (try_except reread (ret tt);; pure uuid)).
  { repeat keeps_step. exact Hr. }
  specialize (Hk s). unfold bind, try_except, self in *. simpl in *.
  rewrite Hi. simpl. exact Hk.
Qed.
End BesideData.
End Frame.

(** ** The bound schema *)

Section Schema.
Context `{R : Runtime} `{K : Const} `{S : SchemaStore} `{F : Family}.
Local Open Scope gw_scope.


Lemma beside_data_initialized : beside_data _initialized.
Proof. by intros d g. Qed.

(** Every call that neither binds a schema nor checks the connection
    leaves alone whatever lies beside [self._data]. *)
Lemma run_keeps {X} (f : Gateway -> X) (c : call) :
  beside_data f ->
  binds_schema c = false ->
  c <> CCheckConnection ->
  keeps f (run c).
Proof.
  intros Hf Hb Hc. destruct c; simpl in *; try discriminate; try congruence.
  - apply keeps_forget, keeps_get_capabilities, Hf.
  - apply keeps_forget, keeps_current_date, Hf.
  - apply keeps_forget, keeps_rawscan.
  - apply keeps_forget, keeps_smallscan.
  - apply keeps_forget, keeps_initialize_circuits, Hf.
  - apply keeps_forget, keeps_initialize_sensors, Hf.
  - apply keeps_custom_test.
  - by intros s.
  - by intros s.
  - apply keeps_pure.
Qed.

Lemma call_check_connection_dec (c : call) :
  c = CCheckConnection \/ c <> CCheckConnection.
Proof. destruct c; (by left) || (by right). Qed.



(** C8.  While no firmware version is known ([self._firmware_version] is
    [None], or any other value that fails the test), [custom_initialize]
    returns without binding a schema, without setting the initialized flag
    and without touching any field of the gateway or the connector. *)
Theorem custom_initialize_without_firmware
    (extra_db : value) (g : Gateway) (w : World) :
  truthy (_firmware_version g) = false ->
  custom_initialize extra_db (g, w) = (Ok tt, (g, w)).
Proof.
  intros Hfw. unfold custom_initialize. run_m. by rewrite Hfw.
Qed.
End Schema.

Section SchemaDemo.
Import Demo.

Lemma ready_reachable : reachable ready.
Proof. exact (reach_call fresh online CInitialize (reach_init _)). Qed.



Lemma custom_initialize_without_firmware_witness :
  custom_initialize (VDict [("sensors", VDict [])]) (fresh, online)
  = (Ok tt, (fresh, online)).
Proof.
  apply custom_initialize_without_firmware. reflexivity.
Defined.
End SchemaDemo.

(** ** Bootstrap: [initialize] and the merged schema *)

Section Bootstrap.
Context `{R : Runtime} `{K : Const} `{S : SchemaStore} `{F : Family}.
Local Open Scope gw_scope.


(** What a run of [initialize] that sets the initialized flag went
    through. *)
Lemma initialize_sets_flag (s : Gateway * World) :
  _initialized (fst s) = false ->
  _initialized (fst (snd (initialize s))) = true ->
  let g' := fst (snd (initialize s)) in
  exists ty db0,
    fst (initialize s) = Ok tt /\
    truthy (_device g') = true /\
    py_in VALUE (_device g') = Ok true /\
    py_getitem (_device g') TYPE = Ok ty /\
    get_db_of_firmware ty (_firmware_version g') = Some db0 /\
    db0 <> [] /\
    _db g' = Some (merge_db db0 get_base_db).
Proof.
  destruct s as [g w]. unfold initialize. run_m. intros Hg Hr.
  repeat (case_match; simpl in *; simplify_eq); try congruence;
    eexists _, _; repeat split; eauto.
Qed.

(** The firmware version is taken from the gateway info as the read of the
    gateway-info section left it, and is in place whatever the model fetch
    that follows does. *)
Lemma initialize_firmware (g : Gateway) (w : World) d b k e fw :
  _update_info
    (match dict_get GATEWAY get_base_db with Some v => v | None => VNone end)
    (_data g, _bus_type g) (conn w) = ((Ok tt, (d, b)), k) ->
  d !! GATEWAY = Some e ->
  entry_get e FIRMWARE_VERSION = Ok fw ->
  _firmware_version (fst (snd (initialize (g, w)))) = fw.
Proof.
  intros Hu He Hfw. unfold initialize, data_item. run_m.
  rewrite Hu. simpl. rewrite He. simpl. rewrite Hfw. simpl.
  repeat (case_match; simpl in *; simplify_eq); reflexivity.
Qed.

(** C3.  [initialize] sets the initialized flag only when the device-model
    descriptor it fetched is non-empty and contains [VALUE], and the schema
    store resolves a non-empty schema for the descriptor's [TYPE] and the
    firmware version; the call then returns normally.  The firmware
    version is read out of the gateway info right after the gateway-info
    read, before the model fetch: it is in place whatever that fetch does,
    also when the fetch raises and [initialize] ends there. *)
Theorem initialize_ready_only_with_model_and_schema (g : Gateway) (w : World) :
  (_initialized g = false ->
   _initialized (fst (snd (initialize (g, w)))) = true ->
   exists ty db0,
     fst (initialize (g, w)) = Ok tt /\
     truthy (_device (fst (snd (initialize (g, w))))) = true /\
     py_in VALUE (_device (fst (snd (initialize (g, w))))) = Ok true /\
     py_getitem (_device (fst (snd (initialize (g, w))))) TYPE = Ok ty /\
     get_db_of_firmware ty (_firmware_version (fst (snd (initialize (g, w)))))
       = Some db0 /\
     db0 <> []) /\
  (forall d b k e fw,
     _update_info
       (match dict_get GATEWAY get_base_db with Some v => v | None => VNone end)
       (_data g, _bus_type g) (conn w) = ((Ok tt, (d, b)), k) ->
     d !! GATEWAY = Some e ->
     entry_get e FIRMWARE_VERSION = Ok fw ->
     _firmware_version (fst (snd (initialize (g, w)))) = fw /\
     (forall x st k',
        get_device_model get_base_db (d, b) k = ((Raise x, st), k') ->
        fst (initialize (g, w)) = Raise x)).
Proof.
  split.
  - intros Hg Hr.
    destruct (initialize_sets_flag (g, w) Hg Hr) as (ty & db0 & H1 & H2 & H3 & H4 & H5 & H6 & _).
    exists ty, db0. repeat split; assumption.
  - intros d b k e fw Hu He Hfw. split; [by eapply initialize_firmware|].
    intros x st k' Hm. unfold initialize, data_item. run_m.
    rewrite Hu. simpl. rewrite He. simpl. rewrite Hfw. simpl.
    rewrite Hm. by destruct st.
Qed.


(** What [custom_initialize] leaves behind on a gateway that knows its
    firmware version, by what [get_initial_db()] does. *)
Lemma custom_initialize_binds (extra_db : value) (g : Gateway) (w : World) :
  truthy (_firmware_version g) = true ->
  let custom := get_custom_db (_firmware_version g) extra_db in
  let g' := fst (snd (custom_initialize extra_db (g, w))) in
  match get_initial_db_no_argument with
  | Ok initial_db =>
      fst (custom_initialize extra_db (g, w)) = Ok tt /\
      _db g' = Some (merge_db custom initial_db) /\
      _initialized g' = true
  | Raise e =>
      fst (custom_initialize extra_db (g, w)) = Raise e /\
      _db g' = Some custom /\
      _initialized g' = _initialized g
  end.
Proof.
  intros Hfw. unfold custom_initialize. run_m. rewrite Hfw.
  destruct get_initial_db_no_argument; simpl; auto.
Qed.

End Bootstrap.

Section BootstrapDemo.
Import Demo.

End BootstrapDemo.

(** ** The connection check *)

Section Connection.
Context `{R : Runtime} `{K : Const} `{S : SchemaStore} `{F : Family}.
Local Open Scope gw_scope.






(** The check of an initialized gateway, step by step. *)
Lemma check_connection_ready (g : Gateway) (w : World) :
  _initialized g = true ->
  check_connection (g, w) =
  match uuid_path g with
  | Raise e => (Raise e, (g, w))
  | Ok path =>
      let w' := {| conn := snd (conn_get path (conn w));
                   fetches := (fetches w ++ [path])%list |} in
      match fst (conn_get path (conn w)) with
      | None => (uuid g, (g, w'))
      | Some response =>
          match py_in VALUE response with
          | Raise e => (Raise e, (g, w'))
          | Ok false => (uuid g, (g, w'))
          | Ok true =>
              match py_getitem response VALUE with
              | Raise e => (Raise e, (g, w'))
              | Ok v =>
                  match cache_uuid v g with
                  | Raise e => (Raise e, (g, w'))
                  | Ok g' => (uuid g', (g', w'))
                  end
              end
          end
      end
  end.
Proof.
  intros Hi.
  unfold check_connection, try_except, connector_get, uuid_path, cache_uuid,
    set_info, db_item, data_item, entry_setitem. run_m. rewrite Hi. simpl.
  destruct (_db g) as [d|]; simpl; [|reflexivity].
  destruct (dict_get GATEWAY d) as [section|]; simpl; [|reflexivity].
  destruct (py_getitem section UUID) as [path|e] eqn:Hp; simpl.
  2:{ destruct section; simpl in Hp; try (simplify_eq; reflexivity).
      destruct (dict_get UUID d0); simplify_eq. reflexivity. }
  destruct (conn_get path (conn w)) as [[response|] k]; simpl; [|reflexivity].
  destruct (py_in VALUE response) as [[]|e] eqn:Hin; simpl.
  - destruct (py_getitem response VALUE) as [v|e] eqn:Hv; simpl.
    + destruct (_data g !! GATEWAY) as [[[]| |]|]; simpl; reflexivity.
    + destruct response; simpl in Hv; try (simplify_eq; reflexivity).
      destruct (dict_get VALUE d0); simplify_eq. reflexivity.
  - reflexivity.
  - destruct response; simpl in Hin; simplify_eq; reflexivity.
Qed.

(** The check of a gateway that is not initialized is [initialize] with a
    device error swallowed, followed by the read of the cached UUID. *)
Lemma check_connection_fresh (g : Gateway) (w : World) :
  _initialized g = false ->
  check_connection (g, w) =
  match initialize (g, w) with
  | (Ok _, s') => (uuid (fst s'), s')
  | (Raise e, s') =>
      if exn_is_device e then (uuid (fst s'), s') else (Raise e, s')
  end.
Proof.
  intros Hi. unfold check_connection, try_except. run_m. rewrite Hi. simpl.
  destruct (initialize (g, w)) as [[[]|[]] s']; reflexivity.
Qed.

Lemma cache_uuid_inv (v : value) (g g' : Gateway) :
  cache_uuid v g = Ok g' ->
  exists info,
    _data g !! GATEWAY = Some (EVal (VDict info)) /\
    g' = set_data (<[GATEWAY := EVal (VDict (dict_set UUID v info))]> (_data g)) g.
Proof.
  unfold cache_uuid, data_item, entry_setitem.
  repeat (case_match; simplify_eq); intros; simplify_eq. eauto.
Qed.

(** C10.  On the path of [check_connection] taken by an initialized
    gateway, the gateway changes only when the transport delivers a
    response that contains [VALUE], and then only in the cached UUID, which
    takes the value of that entry.  When the request fails, and for every
    response without a [VALUE] entry, every field of the gateway is as
    before. *)
Theorem check_connection_overwrites_uuid_only_on_value (g : Gateway) (w : World) :
  _initialized g = true ->
  (fst (snd (check_connection (g, w))) <> g ->
   exists path response v info,
     uuid_path g = Ok path /\
     fst (conn_get path (conn w)) = Some response /\
     py_in VALUE response = Ok true /\
     py_getitem response VALUE = Ok v /\
     _data g !! GATEWAY = Some (EVal (VDict info)) /\
     fst (snd (check_connection (g, w))) =
     set_data (<[GATEWAY := EVal (VDict (dict_set UUID v info))]> (_data g)) g) /\
  (forall path,
     uuid_path g = Ok path ->
     fst (conn_get path (conn w)) = None ->
     fst (snd (check_connection (g, w))) = g) /\
  (forall path response,
     uuid_path g = Ok path ->
     fst (conn_get path (conn w)) = Some response ->
     py_in VALUE response <> Ok true ->
     fst (snd (check_connection (g, w))) = g).
Proof.
  intros Hi. rewrite (check_connection_ready g w Hi). repeat split.
  - destruct (uuid_path g) as [path|e]; simpl; [|congruence].
    destruct (fst (conn_get path (conn w))) as [response|] eqn:Hr; simpl;
      [|congruence].
    destruct (py_in VALUE response) as [[]|e] eqn:Hin; simpl; try congruence.
    destruct (py_getitem response VALUE) as [v|e] eqn:Hv; simpl; [|congruence].
    destruct (cache_uuid v g) as [g'|e] eqn:Hc; simpl; [|congruence].
    intros _. destruct (cache_uuid_inv v g g' Hc) as (info & Hd & ->).
    exists path, response, v, info. repeat split; assumption.
  - intros path Hp Hr. rewrite Hp. simpl. by rewrite Hr.
  - intros path response Hp Hr Hin. rewrite Hp. simpl. rewrite Hr.
    destruct (py_in VALUE response) as [[]|e]; simpl; congruence.
Qed.

End Connection.

Section ConnectionDemo.
Import Demo.

(** The link is down when an initialized gateway checks the connection. *)
Lemma check_connection_overwrites_uuid_only_on_value_witness :
  fst (snd (check_connection (ready, drops_after 0))) = ready.
Proof.
  refine (proj1 (proj2 (check_connection_overwrites_uuid_only_on_value
                          ready (drops_after 0) _))
            (VStr "/gateway/uuid") _ _);
    vm_compute; reflexivity.
Defined.
End ConnectionDemo.
(** ** The targeted scan *)

Section Scan.
Context `{R : Runtime} `{K : Const} `{S : SchemaStore} `{F : Family}.
Local Open Scope gw_scope.

Lemma smallscan_refs_pure _type s : snd (smallscan_refs _type s) = s.
Proof.
  unfold smallscan_refs. run_m.
  repeat (case_match; simpl in *; simplify_eq); reflexivity.
Qed.







End Scan.

Section ScanDemo.
Import Demo.


End ScanDemo.

(** ** Capability discovery *)

Section Capabilities.
Context `{R : Runtime} `{K : Const} `{S : SchemaStore} `{F : Family}.
Local Open Scope gw_scope.


Lemma set_data_same (g : Gateway) : set_data (_data g) g = g.
Proof. by destruct g. Qed.

Lemma write_all_lookup (l : list (string * entry)) (d : gmap string entry) k :
  write_all l d !! k =
  match dict_get k l with Some e => Some e | None => d !! k end.
Proof.
  unfold write_all. revert d.
  induction l as [|[k0 e0] l IH]; intros d; simpl; [done|].
  rewrite IH. destruct (dict_get k l); [done|].
  rewrite lookup_insert. destruct (String.eqb k k0) eqn:E.
  - apply String.eqb_eq in E as ->. by rewrite decide_True.
  - apply String.eqb_neq in E. by rewrite decide_False.
Qed.



Lemma write_all_snoc l k e (d : gmap string entry) :
  write_all (l ++ [(k, e)]) d = <[k := e]> (write_all l d).
Proof. unfold write_all. by rewrite foldl_app. Qed.

Lemma write_all_cons l k e (d : gmap string entry) :
  write_all ((k, e) :: l) d = write_all l (<[k := e]> d).
Proof. reflexivity. Qed.

(** One category discovered. *)
Lemma initialize_circuits_run (c : string) (g : Gateway) (w : World) :
  initialize_circuits c (g, w) =
  (match fst (fst (Circuits_initialize (Circuits_new c (_bus_type g) device_type)
                     (_db g) (conn w))) with
   | Ok _ =>
       Ok (Some (Circuits_circuits
                   (snd (fst (Circuits_initialize
                                (Circuits_new c (_bus_type g) device_type)
                                (_db g) (conn w))))))
   | Raise e => Raise e
   end,
   (set_data
      (<[c := ECircuits
                (snd (fst (Circuits_initialize
                             (Circuits_new c (_bus_type g) device_type)
                             (_db g) (conn w))))]> (_data g)) g,
    {| conn := snd (Circuits_initialize (Circuits_new c (_bus_type g) device_type)
                      (_db g) (conn w));
       fetches := fetches w |})).
Proof.
  unfold initialize_circuits, collection_initialize, get_circuits, data_item.
  run_m. rewrite lookup_insert_eq. simpl.
  destruct (Circuits_initialize (Circuits_new c (_bus_type g) device_type)
              (_db g) (conn w)) as [[[[]|e] obj] k]; simpl.
  - rewrite lookup_insert_eq. simpl. by rewrite insert_insert_eq.
  - by rewrite insert_insert_eq.
Qed.

(** The loop over the categories. *)
Lemma probe_circuits_run (todo : list string) :
  forall supported g w,
    probe_circuits todo supported (g, w) =
    (verdict supported (fst (discover todo (_bus_type g) (_db g) (conn w))),
     (set_data
        (write_all (stored (fst (discover todo (_bus_type g) (_db g) (conn w))))
           (_data g)) g,
      {| conn := snd (discover todo (_bus_type g) (_db g) (conn w));
         fetches := fetches w |})).
Proof.
  induction todo as [|c rest IH]; intros supported g w.
  - simpl. unfold ret. rewrite set_data_same. by destruct w.
  - cbn [probe_circuits discover].
    unfold bind at 1. unfold try_except. unfold bind at 1.
    rewrite initialize_circuits_run.
    destruct (Circuits_initialize (Circuits_new c (_bus_type g) device_type)
                (_db g) (conn w)) as [[r obj] k]. cbn [fst snd].
    destruct r as [[]|e]; cbn [tolerated].
    + unfold ret. rewrite IH. cbn [_bus_type _db _data conn fetches set_data].
      destruct (discover rest (_bus_type g) (_db g) k) as [tr k'].
      cbn [fst snd verdict stored map write_all foldl reported].
      reflexivity.
    + destruct e; cbn [tolerated]; try reflexivity.
      unfold ret. rewrite IH. cbn [_bus_type _db _data conn fetches set_data].
      destruct (discover rest (_bus_type g) (_db g) k) as [tr k'].
      reflexivity.
Qed.

(** [get_capabilities] writes what [survey] says and nothing else. *)
Lemma get_capabilities_run (g : Gateway) (w : World) :
  get_capabilities (g, w) =
  (fst (fst (survey (_bus_type g) (_db g) (conn w))),
   (set_data
      (write_all (snd (fst (survey (_bus_type g) (_db g) (conn w)))) (_data g)) g,
    {| conn := snd (survey (_bus_type g) (_db g) (conn w));
       fetches := fetches w |})).
Proof.
  unfold get_capabilities, survey. unfold bind at 1. rewrite probe_circuits_run.
  destruct (discover (dict_keys CIRCUIT_TYPES) (_bus_type g) (_db g) (conn w))
    as [tr k]. cbn [fst snd].
  destruct (verdict [] tr) as [supported|e]; [|reflexivity].
  unfold initialize_sensors, db_get, db_item, sensors, data_item. run_m.
  destruct (_db g) as [d|]; simpl; [|reflexivity].
  destruct (dict_get SENSORS d) as [section|]; simpl; [|reflexivity].
  rewrite lookup_insert_eq. simpl. by rewrite write_all_snoc.
Qed.

Lemma verdict_tolerated tr :
  forall supported,
    forallb (fun t => tolerated (fst (snd t))) tr = true ->
    verdict supported tr = Ok (supported ++ map fst (List.filter reported tr))%list.
Proof.
  induction tr as [|[c [r obj]] tr IH]; intros supported Htol.
  - simpl. by rewrite app_nil_r.
  - cbn [forallb fst snd] in Htol. apply andb_prop in Htol as [Hr Htr].
    cbn [verdict List.filter fst snd].
    destruct r as [[]|e].
    + rewrite IH by done. unfold reported at 1 3. cbn [fst snd].
      destruct (Circuits_circuits obj); cbn [map fst]; [done|].
      by rewrite <- app_assoc.
    + destruct e; simpl in Hr; try discriminate.
      unfold reported at 1. cbn [fst snd]. by apply IH.
Qed.

Lemma discover_tolerated todo bus db :
  forall k,
    forallb (fun t => tolerated (fst (snd t))) (fst (discover todo bus db k)) = true ->
    map fst (fst (discover todo bus db k)) = todo.
Proof.
  induction todo as [|c rest IH]; intros k; simpl; [done|].
  destruct (Circuits_initialize (Circuits_new c bus device_type) db k)
    as [[r obj] k1]. simpl.
  destruct (tolerated r) eqn:Hr.
  - specialize (IH k1). destruct (discover rest bus db k1) as [tr k2].
    simpl in *. rewrite Hr. simpl. intros Htr. by rewrite IH.
  - simpl. by rewrite Hr.
Qed.

Lemma verdict_ok_tolerated tr :
  forall supported caps,
    verdict supported tr = Ok caps ->
    forallb (fun t => tolerated (fst (snd t))) tr = true.
Proof.
  induction tr as [|[c [r obj]] tr IH]; intros supported caps Hv; simpl in *.
  - done.
  - destruct r as [[]|e]; simpl.
    + eapply IH, Hv.
    + destruct e; simpl; try discriminate. eapply IH, Hv.
Qed.

Lemma NoDup_fst_unique {A} (l : list (string * A)) c x y :
  List.NoDup (map fst l) -> In (c, x) l -> In (c, y) l -> x = y.
Proof.
  induction l as [|[c0 z] l IH]; simpl; [tauto|].
  intros Hnd [Hx|Hx] [Hy|Hy]; simplify_eq.
  - done.
  - apply List.NoDup_cons_iff in Hnd as [Hn _].
    exfalso. apply Hn. apply in_map_iff. by exists (c, y).
  - apply List.NoDup_cons_iff in Hnd as [Hn _].
    exfalso. apply Hn. apply in_map_iff. by exists (c, x).
  - apply List.NoDup_cons_iff in Hnd as [_ Hnd]. by apply IH.
Qed.


Lemma dict_get_NoDup {A} (l : list (string * A)) c x :
  List.NoDup (map fst l) -> In (c, x) l -> dict_get c l = Some x.
Proof.
  induction l as [|[c0 z] l IH]; simpl; [tauto|].
  intros Hnd Hin. apply List.NoDup_cons_iff in Hnd as [Hn Hnd].
  destruct Hin as [Heq|Hin].
  - injection Heq as -> ->. apply dict_get_None in Hn. rewrite Hn.
    by rewrite String.eqb_refl.
  - by rewrite (IH Hnd Hin).
Qed.

(** What a run of [get_capabilities] that returns has done. *)
Lemma get_capabilities_returned (g : Gateway) (w : World) returned :
  fst (get_capabilities (g, w)) = Ok returned ->
  exists db section,
    _db g = Some db /\
    dict_get SENSORS db = Some section /\
    forallb (fun t => tolerated (fst (snd t)))
      (fst (discover (dict_keys CIRCUIT_TYPES) (_bus_type g) (_db g) (conn w)))
      = true.
Proof.
  rewrite get_capabilities_run. unfold survey.
  destruct (discover (dict_keys CIRCUIT_TYPES) (_bus_type g) (_db g) (conn w))
    as [tr k].
  destruct (verdict [] tr) as [supported|e] eqn:Hv; [|discriminate].
  destruct (_db g) as [d|]; [|discriminate].
  destruct (dict_get SENSORS d) as [section|] eqn:Hs; [|discriminate].
  intros _. exists d, section. repeat split; [done|].
  by eapply verdict_ok_tolerated.
Qed.




End Capabilities.

Section CapabilitiesDemo.
Import Demo.



End CapabilitiesDemo.

(** ** Read accessors *)

Section Accessors.
Context `{R : Runtime} `{K : Const} `{S : SchemaStore} `{F : Family}.
Local Open Scope gw_scope.

Lemma get_info_lookup (key : string) (g : Gateway) info :
  _data g !! GATEWAY = Some (EVal (VDict info)) ->
  get_info key g = Ok (match dict_get key info with Some v => v | None => VNone end).
Proof.
  intros Hd. unfold get_info, data_item. rewrite Hd. simpl. unfold dict_has.
  by destruct (dict_get key info).
Qed.

(** C5, as the code has it.  Every read accessor is a lookup in the gateway
    object: it sends nothing and changes nothing.  [get_info] and [uuid]
    return the cached value, [None] for a key not yet populated, as long as
    the gateway info is the dictionary the constructor made it;
    [firmware] and [database] return the field, [None] until it is set;
    [device_name] returns [None] until a device descriptor is known;
    [get_circuits] returns [None] for a category that has no entry.  The
    accessors of a category return the instances of its collection once the
    category has been discovered, and raise while the entry is still [None]
    or missing. *)
Theorem read_accessors_look_up (g : Gateway) (w : World) :
  (forall a, snd (run (CRead a) (g, w)) = (g, w)) /\
  (forall info key,
     _data g !! GATEWAY = Some (EVal (VDict info)) ->
     get_info key g
       = Ok (match dict_get key info with Some v => v | None => VNone end) /\
     uuid g
       = Ok (match dict_get UUID info with Some v => v | None => VNone end)) /\
  firmware g = _firmware_version g /\
  database g = _db g /\
  (_device g = VNone -> device_name g = Ok VNone) /\
  (forall d,
     _device g = VDict d ->
     device_name g
       = Ok (match dict_get NAME d with Some v => v | None => VNone end)) /\
  (forall ctype, _data g !! ctype = None -> get_circuits ctype g = Ok None) /\
  (forall ctype c,
     _data g !! ctype = Some (ECircuits c) ->
     get_circuits ctype g = Ok (Some (Circuits_circuits c))) /\
  (forall c,
     (_data g !! HC = Some (ECircuits c) ->
      heating_circuits g = Ok (Circuits_circuits c)) /\
     (_data g !! DHW = Some (ECircuits c) ->
      dhw_circuits g = Ok (Circuits_circuits c)) /\
     (_data g !! SC = Some (ECircuits c) ->
      solar_circuits g = Ok (Circuits_circuits c))) /\
  (forall s,
     _data g !! SENSORS = Some (ESensors s) ->
     sensors g = Ok (Sensors_sensors s)) /\
  (_data g !! HC = Some (EVal VNone) -> heating_circuits g = Raise AttributeError) /\
  (_data g !! DHW = Some (EVal VNone) -> dhw_circuits g = Raise AttributeError) /\
  (_data g !! SC = None -> solar_circuits g = Raise KeyError) /\
  (_data g !! SENSORS = Some (EVal VNone) -> sensors g = Raise AttributeError).
Proof.
  split; [reflexivity|].
  split.
  { intros info key Hd. split; [|unfold uuid]; by apply get_info_lookup. }
  split; [reflexivity|]. split; [reflexivity|].
  split. { intros Hd. unfold device_name. by rewrite Hd. }
  split.
  { intros d Hd. unfold device_name. rewrite Hd. simpl.
    destruct d as [|b d]; [|reflexivity]. reflexivity. }
  split. { intros ctype Hd. unfold get_circuits. by rewrite Hd. }
  split. { intros ctype c Hd. unfold get_circuits. by rewrite Hd. }
  split.
  { intros c. repeat split; intros Hd;
      unfold heating_circuits, dhw_circuits, solar_circuits, data_item;
      by rewrite Hd. }
  split. { intros s Hd. unfold sensors, data_item. by rewrite Hd. }
  repeat split; intros Hd;
    unfold heating_circuits, dhw_circuits, solar_circuits, sensors, data_item;
    by rewrite Hd.
Qed.
End Accessors.

Section AccessorsDemo.
Import Demo.

(** C5 as stated fails: on a gateway just constructed the accessors of the
    categories raise instead of answering [None]. *)
Lemma read_accessors_counterexample :
  heating_circuits fresh = Raise AttributeError /\
  dhw_circuits fresh = Raise AttributeError /\
  solar_circuits fresh = Raise KeyError /\
  sensors fresh = Raise AttributeError /\
  get_circuits "hc" fresh = Raise AttributeError.
Proof. vm_compute. repeat split; reflexivity. Qed.
End AccessorsDemo.

(** ** Further properties of the gateway methods *)

Section MoreBootstrap.
Context `{R : Runtime} `{K : Const} `{S : SchemaStore} `{F : Family}.
Local Open Scope gw_scope.

(** X1.  [initialize] reaches the initialized state whenever the
    gateway-info read and the model fetch return, the descriptor is
    non-empty with a [VALUE] and a [TYPE], and the store has a non-empty
    schema for that type and the firmware version just read: the call
    returns, the descriptor and the firmware version are kept, the merged
    schema is bound and the flag is set. *)
Theorem initialize_reaches_ready (g : Gateway) (w : World)
    d b k e fw dev st k' ty db0 :
  _update_info
    (match dict_get GATEWAY get_base_db with Some v => v | None => VNone end)
    (_data g, _bus_type g) (conn w) = ((Ok tt, (d, b)), k) ->
  d !! GATEWAY = Some e ->
  entry_get e FIRMWARE_VERSION = Ok fw ->
  get_device_model get_base_db (d, b) k = ((Ok dev, st), k') ->
  truthy dev = true ->
  py_in VALUE dev = Ok true ->
  py_getitem dev TYPE = Ok ty ->
  get_db_of_firmware ty fw = Some db0 ->
  db0 <> [] ->
  initialize (g, w) =
  (Ok tt,
   ({| _host := _host g; _data := fst st; _firmware_version := fw;
       _device := dev; _db := Some (merge_db db0 get_base_db);
       _initialized := true; _bus_type := snd st |},
    {| conn := k'; fetches := fetches w |})).
Proof.
  intros Hu He Hfw Hm Ht Hin Hty Hdb Hne.
  unfold initialize, data_item. run_m.
  rewrite Hu. simpl. rewrite He. simpl. rewrite Hfw. simpl.
  rewrite Hm. destruct st as [d' b']. simpl. rewrite Ht, Hin. simpl.
  rewrite Hty. simpl. rewrite Hdb. destruct db0 as [|x db0]; [done|].
  reflexivity.
Qed.

(** X2.  When the model fetch returns a descriptor that is empty or has no
    [VALUE], [initialize] still returns normally: the firmware version and
    the descriptor are kept, and the schema and the initialized flag are
    left as they were. *)
Theorem initialize_without_model_value (g : Gateway) (w : World)
    d b k e fw dev st k' :
  _update_info
    (match dict_get GATEWAY get_base_db with Some v => v | None => VNone end)
    (_data g, _bus_type g) (conn w) = ((Ok tt, (d, b)), k) ->
  d !! GATEWAY = Some e ->
  entry_get e FIRMWARE_VERSION = Ok fw ->
  get_device_model get_base_db (d, b) k = ((Ok dev, st), k') ->
  truthy dev = false \/ py_in VALUE dev = Ok false ->
  initialize (g, w) =
  (Ok tt,
   ({| _host := _host g; _data := fst st; _firmware_version := fw;
       _device := dev; _db := _db g;
       _initialized := _initialized g; _bus_type := snd st |},
    {| conn := k'; fetches := fetches w |})).
Proof.
  intros Hu He Hfw Hm Hv.
  unfold initialize, data_item. run_m.
  rewrite Hu. simpl. rewrite He. simpl. rewrite Hfw. simpl.
  rewrite Hm. destruct st as [d' b']. simpl.
  destruct Hv as [Ht|Hin].
  - by rewrite Ht.
  - rewrite Hin. by destruct (truthy dev).
Qed.

(** X3.  A second [initialize] whose schema lookup finds nothing takes the
    bound schema away and leaves the initialized flag set.  The gateway then
    counts as initialized without a schema: the next [check_connection]
    skips [initialize], finds no schema to take the UUID path from, and
    raises [TypeError] without sending a request. *)
Theorem reinitialize_without_schema (g : Gateway) (w : World)
    d b k e fw dev st k' ty :
  _initialized g = true ->
  _update_info
    (match dict_get GATEWAY get_base_db with Some v => v | None => VNone end)
    (_data g, _bus_type g) (conn w) = ((Ok tt, (d, b)), k) ->
  d !! GATEWAY = Some e ->
  entry_get e FIRMWARE_VERSION = Ok fw ->
  get_device_model get_base_db (d, b) k = ((Ok dev, st), k') ->
  truthy dev = true ->
  py_in VALUE dev = Ok true ->
  py_getitem dev TYPE = Ok ty ->
  get_db_of_firmware ty fw = None ->
  fst (initialize (g, w)) = Ok tt /\
  _db (fst (snd (initialize (g, w)))) = None /\
  _initialized (fst (snd (initialize (g, w)))) = true /\
  check_connection (snd (initialize (g, w)))
    = (Raise TypeError, snd (initialize (g, w))).
Proof.
  intros Hi Hu He Hfw Hm Ht Hin Hty Hdb.
  assert (Hrun : initialize (g, w) =
    (Ok tt,
     ({| _host := _host g; _data := fst st; _firmware_version := fw;
         _device := dev; _db := None;
         _initialized := true; _bus_type := snd st |},
      {| conn := k'; fetches := fetches w |}))).
  { unfold initialize, data_item. run_m.
    rewrite Hu. simpl. rewrite He. simpl. rewrite Hfw. simpl.
    rewrite Hm. destruct st as [d' b']. simpl. rewrite Ht, Hin. simpl.
    rewrite Hty. simpl. rewrite Hdb. simpl.
    unfold set_db, set_device, set_bus_type, set_data, set_firmware_version.
    simpl. by rewrite Hi. }
  rewrite Hrun. cbn [fst snd _db _initialized].
  split; [done|]. split; [done|]. split; [done|].
  by rewrite check_connection_ready.
Qed.

Lemma initialize_keeps_flag (s : Gateway * World) :
  _initialized (fst s) = true ->
  _initialized (fst (snd (initialize s))) = true.
Proof.
  destruct s as [g w]. unfold initialize. run_m. intros Hg.
  repeat (case_match; simpl in *; simplify_eq); auto.
Qed.

Lemma initialize_keeps_host (s : Gateway * World) :
  _host (fst (snd (initialize s))) = _host (fst s).
Proof.
  destruct s as [g w]. unfold initialize. run_m.
  repeat (case_match; simpl in *; simplify_eq); auto.
Qed.

Lemma beside_data_host : beside_data _host.
Proof. by intros d g. Qed.

Lemma beside_data_firmware : beside_data _firmware_version.
Proof. by intros d g. Qed.

Lemma beside_data_device : beside_data _device.
Proof. by intros d g. Qed.

(** X4.  No call of the public surface ever clears the initialized flag:
    once set it stays set, through failed re-initializations as well. *)
Theorem initialized_flag_is_never_cleared (c : call) (g : Gateway) (w : World) :
  _initialized g = true ->
  _initialized (fst (snd (run c (g, w)))) = true.
Proof.
  intros Hi.
  destruct (binds_schema c) eqn:Hb.
  - destruct c; try discriminate; simpl.
    + by apply (initialize_keeps_flag (g, w)).
    + unfold custom_initialize. run_m.
      by repeat (case_match; simpl in *; simplify_eq).
  - destruct (call_check_connection_dec c) as [->|Hc].
    + simpl.
      by rewrite (keeps_check_connection_ready _initialized
                    beside_data_initialized (g, w) Hi).
    + by rewrite (run_keeps _initialized c beside_data_initialized Hb Hc (g, w)).
Qed.

(** X6.  The host never changes, whatever is called.  The firmware version
    and the device descriptor change only in [initialize], be it called
    directly or by [check_connection] on a gateway not yet initialized;
    [custom_initialize] in particular keeps both. *)
Theorem identity_changes_only_in_initialize (c : call) (g : Gateway) (w : World) :
  _host (fst (snd (run c (g, w)))) = _host g /\
  (c <> CInitialize ->
   (c = CCheckConnection -> _initialized g = true) ->
   _firmware_version (fst (snd (run c (g, w)))) = _firmware_version g /\
   _device (fst (snd (run c (g, w)))) = _device g).
Proof.
  split.
  - destruct (binds_schema c) eqn:Hb.
    + destruct c; try discriminate; simpl.
      * apply (initialize_keeps_host (g, w)).
      * unfold custom_initialize. run_m.
      by repeat (case_match; simpl in *; simplify_eq).
    + destruct (call_check_connection_dec c) as [->|Hc].
      * simpl. destruct (_initialized g) eqn:Hi.
        -- apply (keeps_check_connection_ready _host beside_data_host (g, w) Hi).
        -- rewrite (check_connection_fresh g w Hi).
           pose proof (initialize_keeps_host (g, w)) as Hh.
           destruct (initialize (g, w)) as [[[]|e] s']; simpl in *; [done|].
           by destruct e.
      * apply (run_keeps _host c beside_data_host Hb Hc (g, w)).
  - intros Hne Hcheck.
    destruct (binds_schema c) eqn:Hb.
    + destruct c; try discriminate; [done|]. simpl.
      unfold custom_initialize. run_m.
      by repeat (case_match; simpl in *; simplify_eq).
    + destruct (call_check_connection_dec c) as [->|Hc].
      * simpl. specialize (Hcheck eq_refl).
        by rewrite
          (keeps_check_connection_ready _firmware_version beside_data_firmware
             (g, w) Hcheck),
          (keeps_check_connection_ready _device beside_data_device (g, w) Hcheck).
      * by rewrite (run_keeps _firmware_version c beside_data_firmware Hb Hc (g, w)),
          (run_keeps _device c beside_data_device Hb Hc (g, w)).
Qed.

(** X7.  On a gateway that knows its firmware version, a
    [custom_initialize] that returns has set the initialized flag, and has
    not touched the connector; the [check_connection] that follows
    therefore never runs [initialize]: it sends the one request for the
    UUID path of the schema now bound, or none when that schema has no such
    path.  A [custom_initialize] that raises leaves the flag as it was, so
    on a gateway not yet initialized the [check_connection] that follows
    is a run of [initialize] from the state the failed call left. *)
Theorem custom_initialize_then_check_connection
    (extra_db : value) (g : Gateway) (w : World) :
  truthy (_firmware_version g) = true ->
  (fst (custom_initialize extra_db (g, w)) = Ok tt ->
   snd (snd (custom_initialize extra_db (g, w))) = w /\
   snd (snd (check_connection (snd (custom_initialize extra_db (g, w))))) =
   match uuid_path (fst (snd (custom_initialize extra_db (g, w)))) with
   | Ok path =>
       {| conn := snd (conn_get path (conn w));
          fetches := (fetches w ++ [path])%list |}
   | Raise _ => w
   end) /\
  (forall e,
     fst (custom_initialize extra_db (g, w)) = Raise e ->
     _initialized g = false ->
     snd (check_connection (snd (custom_initialize extra_db (g, w)))) =
     snd (initialize (snd (custom_initialize extra_db (g, w))))).
Proof.
  intros Hfw.
  pose proof (custom_initialize_binds extra_db g w Hfw) as Hb.
  assert (Hw : snd (snd (custom_initialize extra_db (g, w))) = w).
  { unfold custom_initialize. run_m. rewrite Hfw.
    by destruct get_initial_db_no_argument. }
  cbv zeta in Hb.
  destruct (custom_initialize extra_db (g, w)) as [r [g' w']] eqn:Hrun.
  simpl in *. subst w'. split.
  - intros ->. split; [done|].
    destruct get_initial_db_no_argument; [|by destruct Hb].
    destruct Hb as (_ & _ & Hi).
    rewrite (check_connection_ready g' w Hi).
    repeat (case_match; simpl); reflexivity.
  - intros e -> Hg.
    destruct get_initial_db_no_argument; [by destruct Hb|].
    destruct Hb as (_ & _ & Hi). rewrite Hg in Hi.
    rewrite (check_connection_fresh g' w Hi).
    destruct (initialize (g', w)) as [[[]|e'] s']; simpl; [done|].
    by destruct (exn_is_device e').
Qed.
End MoreBootstrap.

Section MoreBootstrapDemo.
Import Demo.

Lemma initialize_reaches_ready_witness :
  _initialized (fst (snd (initialize (fresh, online)))) = true.
Proof.
  erewrite (initialize_reaches_ready fresh online).
  - reflexivity.
  - vm_compute. reflexivity.
  - vm_compute. reflexivity.
  - vm_compute. reflexivity.
  - vm_compute. reflexivity.
  - vm_compute. reflexivity.
  - vm_compute. reflexivity.
  - vm_compute. reflexivity.
  - vm_compute. reflexivity.
  - discriminate.
Defined.

Lemma initialize_without_model_value_witness :
  fst (initialize (fresh, anonymous)) = Ok tt /\
  _initialized (fst (snd (initialize (fresh, anonymous)))) = false.
Proof.
  erewrite (initialize_without_model_value fresh anonymous).
  - split; reflexivity.
  - vm_compute. reflexivity.
  - vm_compute. reflexivity.
  - vm_compute. reflexivity.
  - vm_compute. reflexivity.
  - right. vm_compute. reflexivity.
Defined.

Lemma reinitialize_without_schema_witness :
  _db (fst (snd (initialize (ready, foreign)))) = None /\
  fst (check_connection (snd (initialize (ready, foreign)))) = Raise TypeError.
Proof.
  edestruct (reinitialize_without_schema ready foreign)
    as (_ & Hdb & _ & Hcheck).
  - vm_compute. reflexivity.
  - vm_compute. reflexivity.
  - vm_compute. reflexivity.
  - vm_compute. reflexivity.
  - vm_compute. reflexivity.
  - vm_compute. reflexivity.
  - vm_compute. reflexivity.
  - vm_compute. reflexivity.
  - vm_compute. reflexivity.
  - split; [exact Hdb|]. by rewrite Hcheck.
Defined.

Lemma initialized_flag_is_never_cleared_witness :
  _initialized (fst (snd (run CInitialize (ready, foreign)))) = true.
Proof.
  apply initialized_flag_is_never_cleared. vm_compute. reflexivity.
Defined.

Lemma custom_initialize_then_check_connection_witness :
  fetches (snd (snd (check_connection (S := defaulting_store)
                       (snd (custom_initialize (S := defaulting_store)
                               (VDict []) (named, online))))))
    = [VStr "/gateway/uuid"] /\
  snd (check_connection (snd (custom_initialize (VDict []) (named, online)))) =
  snd (initialize (snd (custom_initialize (VDict []) (named, online)))).
Proof.
  split.
  - destruct (custom_initialize_then_check_connection (S := defaulting_store)
                (VDict []) named online) as [[_ Hc] _].
    + vm_compute. reflexivity.
    + vm_compute. reflexivity.
    + rewrite Hc. vm_compute. reflexivity.
  - destruct (custom_initialize_then_check_connection (VDict []) named online)
      as [_ Hc].
    + vm_compute. reflexivity.
    + apply (Hc TypeError); vm_compute; reflexivity.
Defined.
End MoreBootstrapDemo.

Section MoreOperations.
Context `{R : Runtime} `{K : Const} `{S : SchemaStore} `{F : Family}.
Local Open Scope gw_scope.

(** X8.  When the schema has a gateway section, the gateway info is the
    dictionary it starts as and the device answers the date path with a
    dictionary, [current_date] sends that one request, returns the answer's
    [VALUE] ([None] when there is none) and caches it, so that
    [get_info(DATE)] gives the same value afterwards. *)
Theorem current_date_caches_value (g : Gateway) (w : World)
    d section path resp k info :
  _db g = Some d ->
  dict_get GATEWAY d = Some section ->
  py_get section DATE = Ok path ->
  conn_get path (conn w) = (Some (VDict resp), k) ->
  _data g !! GATEWAY = Some (EVal (VDict info)) ->
  let v := match dict_get VALUE resp with Some x => x | None => VNone end in
  current_date (g, w) =
  (Ok v,
   (set_data (<[GATEWAY := EVal (VDict (dict_set DATE v info))]> (_data g)) g,
    {| conn := k; fetches := (fetches w ++ [path])%list |})) /\
  get_info DATE (fst (snd (current_date (g, w)))) = Ok v.
Proof.
  intros Hdb Hsec Hpath Hget Hinfo v.
  assert (Hrun : current_date (g, w) =
    (Ok v,
     (set_data (<[GATEWAY := EVal (VDict (dict_set DATE v info))]> (_data g)) g,
      {| conn := k; fetches := (fetches w ++ [path])%list |}))).
  { unfold current_date, set_info, connector_get, db_item, data_item. run_m.
    rewrite Hdb. simpl. rewrite Hsec. simpl. rewrite Hpath. simpl.
    rewrite Hget. simpl. rewrite Hinfo. reflexivity. }
  split; [exact Hrun|]. rewrite Hrun. cbn [fst snd].
  rewrite (get_info_lookup DATE _ (dict_set DATE v info)).
  - by rewrite dict_get_set, String.eqb_refl.
  - simpl. apply lookup_insert_eq.
Qed.

(** X9.  [current_date] does not swallow errors.  A request that fails
    raises [DeviceException] to the caller, and whenever the call raises,
    for whatever reason, the gateway is as it was: nothing is cached. *)
Theorem current_date_raises_without_caching (g : Gateway) (w : World) :
  (forall e,
     fst (current_date (g, w)) = Raise e ->
     fst (snd (current_date (g, w))) = g) /\
  (forall d section path k,
     _db g = Some d ->
     dict_get GATEWAY d = Some section ->
     py_get section DATE = Ok path ->
     conn_get path (conn w) = (None, k) ->
     current_date (g, w) =
     (Raise DeviceException,
      (g, {| conn := k; fetches := (fetches w ++ [path])%list |}))).
Proof.
  split.
  - intros e. unfold current_date, set_info, connector_get, db_item, data_item,
      entry_setitem. run_m.
    repeat (case_match; simpl in *; simplify_eq); try reflexivity; discriminate.
  - intros d section path k Hdb Hsec Hpath Hget.
    unfold current_date, set_info, connector_get, db_item, data_item. run_m.
    rewrite Hdb. simpl. rewrite Hsec. simpl. rewrite Hpath. simpl.
    by rewrite Hget.
Qed.


(** X11.  [initialize_sensors] never talks to the device.  It either
    replaces the sensor collection, built from the sensors chosen by the
    caller (the sensors section itself when the caller gives none, or an
    empty choice) and the sensors section of the schema, and returns what the
    [sensors] accessor then shows; or it raises and leaves gateway and
    connector as they were.  Without a schema it raises [AttributeError] when
    no sensors were chosen and [TypeError] when some were; with a schema that
    has no sensors section it raises [KeyError]. *)
Theorem initialize_sensors_replaces_or_fails
    (choosed_sensors : value) (g : Gateway) (w : World) :
  (forall e,
     fst (initialize_sensors choosed_sensors (g, w)) = Raise e ->
     snd (initialize_sensors choosed_sensors (g, w)) = (g, w)) /\
  (forall l,
     fst (initialize_sensors choosed_sensors (g, w)) = Ok l ->
     exists db section,
       _db g = Some db /\
       dict_get SENSORS db = Some section /\
       snd (initialize_sensors choosed_sensors (g, w)) =
       (set_data
          (<[SENSORS :=
               ESensors
                 (Sensors_new
                    (if truthy choosed_sensors then choosed_sensors else section)
                    section)]> (_data g)) g, w) /\
       sensors (fst (snd (initialize_sensors choosed_sensors (g, w)))) = Ok l) /\
  (_db g = None ->
   fst (initialize_sensors choosed_sensors (g, w)) =
   Raise (if truthy choosed_sensors then TypeError else AttributeError)) /\
  (forall db,
     _db g = Some db ->
     dict_get SENSORS db = None ->
     fst (initialize_sensors choosed_sensors (g, w)) = Raise KeyError).
Proof.
  unfold initialize_sensors, db_get, db_item, sensors, data_item. run_m.
  split; [|split; [|split]].
  - intros e.
    destruct (truthy choosed_sensors); simpl;
      destruct (_db g) as [d|]; simpl; try reflexivity;
      destruct (dict_get SENSORS d); simpl; try reflexivity;
      rewrite lookup_insert_eq; discriminate.
  - intros l.
    destruct (truthy choosed_sensors); simpl;
      destruct (_db g) as [d|]; simpl; try discriminate;
      destruct (dict_get SENSORS d) as [section|] eqn:Hs; simpl; try discriminate;
      rewrite lookup_insert_eq; simpl; intros [= <-];
      exists d, section; repeat split; done.
  - intros Hdb. destruct (truthy choosed_sensors); simpl; by rewrite Hdb.
  - intros db Hdb Hs.
    destruct (truthy choosed_sensors); simpl; rewrite Hdb; simpl; by rewrite Hs.
Qed.
End MoreOperations.

Section MoreOperationsDemo.
Import Demo.

Lemma current_date_caches_value_witness :
  fst (current_date (clocked, timed)) = Ok (VStr "2021-03-04T10:05:00") /\
  get_info "dateTime" (fst (snd (current_date (clocked, timed))))
    = Ok (VStr "2021-03-04T10:05:00").
Proof.
  edestruct (current_date_caches_value clocked timed) as [Hrun Hinfo].
  - vm_compute. reflexivity.
  - vm_compute. reflexivity.
  - vm_compute. reflexivity.
  - vm_compute. reflexivity.
  - vm_compute. reflexivity.
  - split; [by rewrite Hrun|exact Hinfo].
Defined.
End MoreOperationsDemo.

Section MoreCapabilities.
Context `{R : Runtime} `{K : Const} `{S : SchemaStore} `{F : Family}.
Local Open Scope gw_scope.

Lemma discover_keys todo bus db :
  forall k c, In c (map fst (fst (discover todo bus db k))) -> In c todo.
Proof.
  induction todo as [|c0 rest IH]; intros k c; simpl; [done|].
  destruct (Circuits_initialize (Circuits_new c0 bus device_type) db k)
    as [[r obj] k1]. simpl.
  destruct (tolerated r).
  - specialize (IH k1 c). destruct (discover rest bus db k1) as [tr k2].
    simpl in *. intros [Heq|Hin]; [by left|right; by apply IH].
  - simpl. intros [Heq|[]]. by left.
Qed.

Lemma survey_writes bus db k key :
  ~ In key (dict_keys CIRCUIT_TYPES) ->
  key <> SENSORS ->
  dict_get key (snd (fst (survey bus db k))) = None.
Proof.
  intros Hkey Hne. unfold survey.
  pose proof (discover_keys (dict_keys CIRCUIT_TYPES) bus db k key) as Hk.
  destruct (discover (dict_keys CIRCUIT_TYPES) bus db k) as [tr k'].
  simpl in Hk.
  assert (Hst : dict_get key (stored tr) = None).
  { apply dict_get_None. unfold stored. rewrite map_map. simpl. tauto. }
  destruct (verdict [] tr); [|done].
  destruct db as [d|]; [|done].
  destruct (dict_get SENSORS d); [|done]. simpl.
  rewrite dict_get_app. simpl.
  destruct (String.eqb key SENSORS) eqn:E; [|done].
  by apply String.eqb_eq in E.
Qed.

(** X12.  [get_capabilities] writes only the entries of the circuit
    categories and of the sensors: every other entry of [self._data], every
    other field of the gateway and the log of the gateway's own requests are
    as before.  In particular, unless [GATEWAY] is itself a category key,
    everything [get_info] answers is kept through a discovery. *)
Theorem get_capabilities_touches_only_collections (g : Gateway) (w : World) :
  set_data (_data g) (fst (snd (get_capabilities (g, w)))) = g /\
  fetches (snd (snd (get_capabilities (g, w)))) = fetches w /\
  (forall k,
     ~ In k (dict_keys CIRCUIT_TYPES) -> k <> SENSORS ->
     _data (fst (snd (get_capabilities (g, w)))) !! k = _data g !! k) /\
  (~ In GATEWAY (dict_keys CIRCUIT_TYPES) -> GATEWAY <> SENSORS ->
   forall key,
     get_info key (fst (snd (get_capabilities (g, w)))) = get_info key g).
Proof.
  rewrite get_capabilities_run. cbn [fst snd fetches].
  assert (Hk : forall k,
            ~ In k (dict_keys CIRCUIT_TYPES) -> k <> SENSORS ->
            write_all (snd (fst (survey (_bus_type g) (_db g) (conn w)))) (_data g)
              !! k = _data g !! k).
  { intros k Hin Hne. rewrite write_all_lookup.
    by rewrite survey_writes. }
  split; [by destruct g|]. split; [done|]. split; [exact Hk|].
  intros Hin Hne key. unfold get_info, data_item. simpl.
  by rewrite Hk.
Qed.

Lemma filter_fst_sublist {A} (f : string * A -> bool) (l : list (string * A)) :
  sublist (map fst (List.filter f l)) (map fst l).
Proof.
  induction l as [|x l IH]; simpl; [constructor|].
  destruct (f x); simpl; by constructor.
Qed.

(** What a run of [get_capabilities] that returns leaves behind. *)
Lemma get_capabilities_ok (g : Gateway) (w : World) returned :
  fst (get_capabilities (g, w)) = Ok returned ->
  exists section,
    (_db g ≫= dict_get SENSORS) = Some section /\
    map fst (fst (discover (dict_keys CIRCUIT_TYPES) (_bus_type g) (_db g) (conn w)))
      = dict_keys CIRCUIT_TYPES /\
    returned =
      (map fst (List.filter reported
                  (fst (discover (dict_keys CIRCUIT_TYPES) (_bus_type g) (_db g)
                          (conn w)))) ++ [SENSOR])%list /\
    _data (fst (snd (get_capabilities (g, w)))) =
      <[SENSORS := ESensors (Sensors_new section section)]>
        (write_all
           (stored (fst (discover (dict_keys CIRCUIT_TYPES) (_bus_type g) (_db g)
                           (conn w))))
           (_data g)).
Proof.
  intros Hret.
  destruct (get_capabilities_returned g w returned Hret)
    as (db & section & Hdb & Hsec & Htol).
  pose proof (discover_tolerated _ _ _ _ Htol) as Hkeys.
  rewrite get_capabilities_run in Hret |- *. unfold survey in *.
  destruct (discover (dict_keys CIRCUIT_TYPES) (_bus_type g) (_db g) (conn w))
    as [tr k]. cbn [fst snd] in *.
  rewrite (verdict_tolerated tr [] Htol) in Hret |- *.
  rewrite Hdb in Hret |- *. rewrite Hsec in Hret |- *. cbn [fst snd] in *.
  exists section. simpl. split; [done|]. split; [done|].
  split; [by injection Hret as <-|]. by rewrite write_all_snoc.
Qed.

(** X13.  The list [get_capabilities] returns is a selection of the circuit
    categories in the order of [CIRCUIT_TYPES], each at most once, with
    [SENSOR] as its last element. *)
Theorem capability_list_shape (g : Gateway) (w : World) (returned : list string) :
  fst (get_capabilities (g, w)) = Ok returned ->
  exists categories,
    returned = (categories ++ [SENSOR])%list /\
    sublist categories (dict_keys CIRCUIT_TYPES) /\
    NoDup categories.
Proof.
  intros Hret.
  destruct (get_capabilities_ok g w returned Hret) as (section & _ & Hkeys & Hcaps & _).
  eexists. split; [exact Hcaps|].
  assert (Hsub : sublist
            (map fst (List.filter reported
               (fst (discover (dict_keys CIRCUIT_TYPES) (_bus_type g) (_db g)
                       (conn w)))))
            (dict_keys CIRCUIT_TYPES)).
  { rewrite <- Hkeys at 2. apply filter_fst_sublist. }
  split; [exact Hsub|].
  eapply sublist_NoDup; [|exact Hsub].
  apply NoDup_ListNoDup, dict_keys_NoDup.
Qed.

(** X14.  After a run of [get_capabilities] that returns, the accessors
    answer for every category: [get_circuits] gives the stored circuits of
    each circuit category, a non-empty list for the categories the run
    returned, and [sensors] gives the sensors of the new collection. *)
Theorem capabilities_agree_with_accessors
    (g : Gateway) (w : World) (returned : list string) :
  fst (get_capabilities (g, w)) = Ok returned ->
  (forall c,
     In c (dict_keys CIRCUIT_TYPES) -> c <> SENSORS ->
     exists l,
       get_circuits c (fst (snd (get_capabilities (g, w)))) = Ok (Some l) /\
       (c <> SENSOR -> In c returned -> l <> [])) /\
  (exists s, sensors (fst (snd (get_capabilities (g, w)))) = Ok s).
Proof.
  intros Hret.
  destruct (get_capabilities_ok g w returned Hret)
    as (section & _ & Hkeys & Hcaps & Hdata).
  set (tr := fst (discover (dict_keys CIRCUIT_TYPES) (_bus_type g) (_db g) (conn w)))
    in *.
  assert (Hnd : List.NoDup (map fst tr)).
  { rewrite Hkeys. apply dict_keys_NoDup. }
  split.
  - intros c Hin Hne. rewrite <- Hkeys in Hin.
    apply in_map_iff in Hin as ([c' [r obj]] & Heq & Hin). simpl in Heq. subst c'.
    exists (Circuits_circuits obj). split.
    + unfold get_circuits. rewrite Hdata.
      rewrite lookup_insert_ne by done. rewrite write_all_lookup.
      rewrite (dict_get_NoDup (stored tr) c (ECircuits obj)); [done| |].
      * unfold stored. rewrite map_map. simpl. exact Hnd.
      * unfold stored. apply in_map_iff. by exists (c, (r, obj)).
    + intros Hs Hc. rewrite Hcaps in Hc.
      apply in_app_iff in Hc as [Hc|[Hc|[]]]; [|congruence].
      apply in_map_iff in Hc as ([c' [r' obj']] & Heq & Hf). simpl in Heq. subst c'.
      apply filter_In in Hf as [Hin' Hrep].
      pose proof (NoDup_fst_unique tr c _ _ Hnd Hin Hin') as Heq.
      injection Heq as <- <-. unfold reported in Hrep. simpl in Hrep.
      destruct r; [|discriminate]. by destruct (Circuits_circuits obj).
  - eexists. unfold sensors, data_item. rewrite Hdata.
    by rewrite lookup_insert_eq.
Qed.

End MoreCapabilities.

Section MoreCapabilitiesDemo.
Import Demo.

Lemma capability_list_shape_witness :
  exists categories,
    ["hc"; "sensor"] = (categories ++ [SENSOR])%list /\
    sublist categories (dict_keys CIRCUIT_TYPES) /\
    NoDup categories.
Proof.
  apply (capability_list_shape ready online ["hc"; "sensor"]).
  vm_compute. reflexivity.
Defined.

Lemma capabilities_agree_with_accessors_witness :
  exists s, sensors (fst (snd (get_capabilities (ready, online)))) = Ok s.
Proof.
  apply (capabilities_agree_with_accessors ready online ["hc"; "sensor"]).
  vm_compute. reflexivity.
Defined.

End MoreCapabilitiesDemo.

Section MoreConnection.
Context `{R : Runtime} `{K : Const} `{S : SchemaStore} `{F : Family}.
Local Open Scope gw_scope.

(** X16.  On an initialized gateway whose gateway info is a dictionary,
    when the device answers the UUID path with a dictionary that has a
    [VALUE], [check_connection] returns that value, whatever UUID was cached
    before, and caches it in place of the old one. *)
Theorem check_connection_returns_delivered_uuid (g : Gateway) (w : World)
    path resp k v info :
  _initialized g = true ->
  uuid_path g = Ok path ->
  conn_get path (conn w) = (Some (VDict resp), k) ->
  dict_get VALUE resp = Some v ->
  _data g !! GATEWAY = Some (EVal (VDict info)) ->
  check_connection (g, w) =
  (Ok v,
   (set_data (<[GATEWAY := EVal (VDict (dict_set UUID v info))]> (_data g)) g,
    {| conn := k; fetches := (fetches w ++ [path])%list |})).
Proof.
  intros Hi Hp Hget Hv Hinfo.
  rewrite (check_connection_ready g w Hi), Hp, Hget. cbn [fst snd].
  unfold py_in, py_getitem, dict_has. rewrite Hv.
  unfold cache_uuid, data_item, entry_setitem. rewrite Hinfo.
  unfold uuid.
  rewrite (get_info_lookup UUID _ (dict_set UUID v info)).
  - by rewrite dict_get_set, String.eqb_refl.
  - simpl. apply lookup_insert_eq.
Qed.

(** X17.  [check_connection] swallows device errors only.  On an
    initialized gateway that has no schema it raises [TypeError], and with a
    schema that has no gateway section, or a gateway section without a UUID
    path, it raises [KeyError]; in each case no request is sent and the
    gateway is unchanged. *)
Theorem check_connection_without_uuid_path (g : Gateway) (w : World) :
  _initialized g = true ->
  (_db g = None -> check_connection (g, w) = (Raise TypeError, (g, w))) /\
  (forall d,
     _db g = Some d -> dict_get GATEWAY d = None ->
     check_connection (g, w) = (Raise KeyError, (g, w))) /\
  (forall d section,
     _db g = Some d -> dict_get GATEWAY d = Some (VDict section) ->
     dict_get UUID section = None ->
     check_connection (g, w) = (Raise KeyError, (g, w))).
Proof.
  intros Hi. rewrite (check_connection_ready g w Hi).
  unfold uuid_path, db_item. repeat split.
  - intros Hdb. by rewrite Hdb.
  - intros d Hdb Hs. rewrite Hdb. simpl. by rewrite Hs.
  - intros d section Hdb Hs Hu. rewrite Hdb. simpl. rewrite Hs. simpl.
    by rewrite Hu.
Qed.

(** X18.  [smallscan] sends nothing before it has a reference set.  Without
    a schema it raises [AttributeError]; so it does when the schema lacks the
    section of the category asked for (the heating circuits, the hot water,
    or the sensors for any other type).  With an empty reference set it
    returns the empty list.  In all these cases gateway and connector are
    untouched. *)
Theorem smallscan_without_references
    (depth : nat) (_type : string) (g : Gateway) (w : World) :
  (_db g = None -> smallscan depth _type (g, w) = (Raise AttributeError, (g, w))) /\
  (forall d,
     _db g = Some d ->
     dict_get
       (if String.eqb _type HC then HEATING_CIRCUITS
        else if String.eqb _type DHW then DHW_CIRCUITS else SENSORS) d = None ->
     smallscan depth _type (g, w) = (Raise AttributeError, (g, w))) /\
  (forall label,
     fst (smallscan_refs _type (g, w)) = Ok (VDict [], label) ->
     smallscan depth _type (g, w) = (Ok [], (g, w))).
Proof.
  repeat split.
  - intros Hdb. unfold smallscan, smallscan_with, smallscan_refs, db_get.
    destruct (String.eqb _type HC); [|destruct (String.eqb _type DHW)];
      run_m; by rewrite Hdb.
  - intros d Hdb Hs. unfold smallscan, smallscan_with, smallscan_refs, db_get.
    destruct (String.eqb _type HC); [|destruct (String.eqb _type DHW)];
      run_m; rewrite Hdb; simpl; by rewrite Hs.
  - intros label Hrefs.
    pose proof (smallscan_refs_pure _type (g, w)) as Hpure.
    unfold smallscan, smallscan_with. unfold bind at 1.
    destruct (smallscan_refs _type (g, w)) as [r s0]. simpl in *. subst.
    reflexivity.
Qed.
End MoreConnection.

Section MoreConnectionDemo.
Import Demo.

Lemma check_connection_returns_delivered_uuid_witness :
  fst (check_connection (ready, online)) = Ok (VStr "101506113").
Proof.
  erewrite (check_connection_returns_delivered_uuid ready online).
  - reflexivity.
  - vm_compute. reflexivity.
  - vm_compute. reflexivity.
  - vm_compute. reflexivity.
  - vm_compute. reflexivity.
  - vm_compute. reflexivity.
Defined.

Lemma check_connection_without_uuid_path_witness :
  check_connection (set_db None ready, online)
    = (Raise TypeError, (set_db None ready, online)).
Proof.
  apply (check_connection_without_uuid_path (set_db None ready) online).
  - vm_compute. reflexivity.
  - reflexivity.
Defined.
End MoreConnectionDemo.
